(** * Remote action executor of the sync engine (inbox/actions/backends/generic.py)

    A shallow embedding of the handlers that push local mailbox changes to a
    generic IMAP provider, and the properties of the specification that are
    settled on it.

    The handlers are Python functions that read the datastore inside
    [session_scope] blocks, talk to the remote mailbox through a pooled
    [crispin_client], log, and may raise.  They are embedded in a small state
    and exception monad over a [world]: the datastore, the state of the remote
    session, and the chronological trace of everything observable a handler
    did (session acquisition and release, every call on the session, every
    log line, every datastore write). *)

From Stdlib Require Import ZArith String Ascii List Lia.
From stdpp Require Import base gmap list strings fin_maps.

Local Open Scope Z_scope.

(** ** Exceptions and outcomes *)

(** The exceptions the handlers can meet.  [imaplib.IMAP4.error] is the base
    class of the protocol errors; [IMAP4.abort] derives from it and
    [IMAP4.readonly] from [IMAP4.abort].  [socket_error] stands for any
    failure outside that hierarchy coming from the network layer. *)
Inductive exn : Type :=
| IMAP4_error (detail : string)
| IMAP4_abort (detail : string)
| IMAP4_readonly (detail : string)
| socket_error (detail : string)
| AttributeError
| IndexError
| KeyError
| UnmappedInstanceError.

(** [isinstance(e, IMAP4.error)], what [except IMAP4.error] tests. *)
Definition isinstance_IMAP4_error (e : exn) : bool :=
  match e with
  | IMAP4_error _ | IMAP4_abort _ | IMAP4_readonly _ => true
  | _ => false
  end.

Inductive outcome (A : Type) : Type :=
| Returned (a : A)
| Raised (e : exn).
Arguments Returned {A} a.
Arguments Raised {A} e.

Definition is_returned {A} (o : outcome A) : bool :=
  match o with Returned _ => true | Raised _ => false end.

(** ** Datastore rows *)

Record Account := { provider : string }.

Record Category := { display_name : string }.

Record Folder := { name : string }.

Record ImapUid := { uid_message_id : Z; msg_uid : Z; uid_folder_id : Z }.

Record Message := {
  attachments : list Z;            (* the [block] of each attached part *)
  from_addr : list (string * string);
  reply_to : list (string * string);
  inbox_uid : string;
  to_addr : list (string * string);
  cc_addr : list (string * string);
  bcc_addr : list (string * string);
  subject : string;
  body : string;
  in_reply_to : string;
  references : list string;
  message_id_header : string;
  public_id : string;
  version : Z
}.

Record Db := {
  accounts : gmap Z Account;
  categories : gmap Z Category;
  messages : gmap Z Message;
  folders : gmap Z Folder;
  imapuids : list ImapUid
}.

(** Modelled from the spec: the message builder ([create_email] and
    [generate_attachments] of inbox.sendmail) is missing from the sources.  The
    specification only says that it turns a message into a wire representation
    including attachments; the representation is kept symbolic, as the keyword
    arguments [_create_email] hands to the builder. *)
Record email := {
  e_from_name : string;
  e_from_email : string;
  e_reply_to : list (string * string);
  e_inbox_uid : string;
  e_to_addr : list (string * string);
  e_cc_addr : list (string * string);
  e_bcc_addr : list (string * string);
  e_subject : string;
  e_html : string;
  e_in_reply_to : string;
  e_references : list string;
  e_attachments : list Z
}.

(** ** The connection session *)

(** The methods and properties of [crispin_client] (and of its [conn]) the
    handlers use.  [select_folder] is always called with [uidvalidity_cb]. *)
Inductive call : Type :=
| select_folder (folder_name : string)
| conn_add_flags (uids : list Z) (flags : list string)
| conn_remove_flags (uids : list Z) (flags : list string)
| conn_copy (uids : list Z) (destination : string)
| delete_uids (uids : list Z)
| folder_separator
| folder_prefix
| conn_create_folder (folder_name : string)
| conn_rename_folder (old_name new_name : string)
| conn_delete_folder (folder_name : string)
| folder_names
| find_by_header (header value : string)
| save_draft (mimemsg : email)
| delete_draft (message_id_header : string)
| delete_sent_message (message_id_header : string) (delete_multiple : bool)
| create_message (mimemsg : email).

(** What each call answers: the role-to-folders mapping, a folder separator or
    prefix, the message found (or none), whether a draft was found and deleted;
    nothing of interest otherwise. *)
Definition resp_type (c : call) : Type :=
  match c with
  | folder_names => gmap string (list string)
  | folder_separator | folder_prefix => string
  | find_by_header _ _ => option Z
  | delete_draft _ => bool
  | _ => unit
  end.

(** A connection session is any state machine that answers the calls: it
    returns or raises, and moves to a new state. *)
Class Crispin (R : Type) : Type :=
  respond : forall c : call, R -> outcome (resp_type c) * R.

(** ** Traces and worlds *)

Inductive level : Type := warning | info.

Inductive event : Type :=
| Acquire (account_id : Z)
| Release (account_id : Z)
| Call (c : call)
| Log (lvl : level) (msg : string)
| DbSetDisplayName (category_id : Z) (new_display_name : string)
| DbDelete (category_id : Z)
| DbCommit.

(** The events that touch the connection session. *)
Definition is_session_event (e : event) : bool :=
  match e with
  | Acquire _ | Release _ | Call _ => true
  | _ => false
  end.

Record world (R : Type) : Type := World {
  db : Db;
  remote : R;
  trace : list event
}.
Arguments World {R} db remote trace.
Arguments db {R} w.
Arguments remote {R} w.
Arguments trace {R} w.

(** ** The handler monad *)

Definition M (R A : Type) : Type := world R -> outcome A * world R.

Definition ret {R A} (a : A) : M R A := fun w => (Returned a, w).

Definition raise {R A} (e : exn) : M R A := fun w => (Raised e, w).

Definition bind {R A B} (m : M R A) (k : A -> M R B) : M R B :=
  fun w =>
    match m w with
    | (Returned a, w') => k a w'
    | (Raised e, w') => (Raised e, w')
    end.

Declare Scope handler_scope.
Delimit Scope handler_scope with handler.
Notation "x <- m ;; k" := (bind m (fun x => k))
  (at level 100, m at next level, k at level 200, right associativity,
   only parsing) : handler_scope.

(** The outcome of a computation that does not touch the world. *)
Definition lift {R A} (o : outcome A) : M R A := fun w => (o, w).

Definition emit {R} (e : event) : M R unit :=
  fun w => (Returned tt, World (db w) (remote w) (trace w ++ [e])).

Definition log {R} (lvl : level) (msg : string) : M R unit := emit (Log lvl msg).

(** A [for] loop over a list, stopping at the first exception. *)
Fixpoint for_each {R A} (l : list A) (body : A -> M R unit) : M R unit :=
  match l with
  | [] => ret tt
  | x :: l' => bind (body x) (fun _ => for_each l' body)
  end.

(** [o.attr] on a row that a [get] may have answered [None] for. *)
Definition getattr {R A B} (o : option A) (attr : A -> B) : M R B :=
  match o with
  | Some a => ret (attr a)
  | None => raise AttributeError
  end.

(** [d[key]] on a dict. *)
Definition getitem {R A} (d : gmap string A) (key : string) : M R A :=
  match d !! key with
  | Some a => ret a
  | None => raise KeyError
  end.

(** [l[0]] on a list. *)
Definition first_item {R A} (l : list A) : M R A :=
  match l with
  | a :: _ => ret a
  | [] => raise IndexError
  end.

(** [with session_scope(account_id) as db_session]: the block runs on the
    datastore; the changes are committed when it is left normally (also by a
    [return]) and rolled back when it is left by an exception. *)
Definition session_scope {R A} (account_id : Z) (block : M R A) : M R A :=
  fun w =>
    match block w with
    | (Returned a, w') => (Returned a, w')
    | (Raised e, w') => (Raised e, World (db w) (remote w') (trace w'))
    end.

Definition db_session {R} : M R Db := fun w => (Returned (db w), w).

(** [db_session.query(Account).get(account_id)] and its likes. *)
Definition query_get {R A} (table : Db -> gmap Z A) (id : Z) : M R (option A) :=
  fun w => (Returned (table (db w) !! id), w).

Definition with_categories (d : Db) (c : gmap Z Category) : Db :=
  {| accounts := accounts d;
     categories := c;
     messages := messages d;
     folders := folders d;
     imapuids := imapuids d |}.

(** [category.display_name = new_display_name] on the row [get] answered. *)
Definition set_display_name {R} (category_id : Z) (category : option Category)
    (new_display_name : string) : M R unit :=
  match category with
  | None => raise AttributeError
  | Some _ =>
      fun w =>
        (Returned tt,
         World (with_categories (db w)
                  (<[category_id := {| display_name := new_display_name |}]>
                     (categories (db w))))
               (remote w)
               (trace w ++ [DbSetDisplayName category_id new_display_name]))
  end.

(** [db_session.delete(category)]; deleting [None] is refused by the ORM. *)
Definition db_delete {R} (category_id : Z) (category : option Category) : M R unit :=
  match category with
  | None => raise UnmappedInstanceError
  | Some _ =>
      fun w =>
        (Returned tt,
         World (with_categories (db w) (delete category_id (categories (db w))))
               (remote w)
               (trace w ++ [DbDelete category_id]))
  end.

(** [db_session.commit()]: nothing follows it inside its block. *)
Definition db_commit {R} : M R unit := emit DbCommit.

(** [with writable_connection_pool(account_id).get() as crispin_client]: the
    session is acquired, the block runs, and the session is released on every
    way out of the block. *)
Definition writable_connection_pool_get {R A} (account_id : Z) (block : M R A) : M R A :=
  fun w =>
    match block (World (db w) (remote w) (trace w ++ [Acquire account_id])) with
    | (o, w') => (o, World (db w') (remote w') (trace w' ++ [Release account_id]))
    end.

(** A call on the acquired session. *)
Definition crispin_client {R} `{Crispin R} (c : call) : M R (resp_type c) :=
  fun w =>
    match respond c (remote w) with
    | (o, r') => (o, World (db w) r' (trace w ++ [Call c]))
    end.

(** [try: block / except IMAP4.error: pass]. *)
Definition try_except_IMAP4_error {R} (block : M R unit) : M R unit :=
  fun w =>
    match block w with
    | (Returned a, w') => (Returned a, w')
    | (Raised e, w') =>
        if isinstance_IMAP4_error e then (Returned tt, w') else (Raised e, w')
    end.

Local Open Scope string_scope.
Local Open Scope list_scope.
Local Open Scope Z_scope.

(** ** Folder names *)

(** Modelled from the spec: [imap_folder_path] of inbox.util.misc is missing
    from the sources.  The specification says that it rewrites the display name
    by substituting the provider's separator for the local hierarchy separator
    ['/'] and prepends the provider's prefix. *)
Fixpoint substitute_separator (separator path : string) : string :=
  match path with
  | EmptyString => EmptyString
  | String c rest =>
      if Ascii.eqb c "/"%char
      then separator +:+ substitute_separator separator rest
      else String c (substitute_separator separator rest)
  end.

(** Modelled from the spec: [imap_folder_path] of inbox.util.misc, missing from
    the sources: the prefix, then the display name with the separator
    substituted. *)
Definition imap_folder_path (path separator prefix : string) : string :=
  prefix +:+ substitute_separator separator path.

(** [account_provider not in ['gmail', 'eas']] *)
Definition not_in_gmail_eas (account_provider : string) : bool :=
  negb (bool_decide (account_provider ∈ ["gmail"; "eas"])).

(** The name the three folder handlers compute (lines 107-114, 130-135 and
    152-156), as a function of what they read. *)
Definition translated_name (account_provider display_name separator prefix : string)
    : string :=
  if not_in_gmail_eas account_provider
  then imap_folder_path display_name separator prefix
  else display_name.

(** ** The handlers *)

Section Handlers.

Context {R : Type} `{Crispin R}.

Local Open Scope handler_scope.

(** The rows of [query(ImapUid.msg_uid, Folder.name).join(Folder)
    .filter(ImapUid.message_id == message_id).all()]. *)
Definition query_msg_uid_folder_name (message_id : Z) (d : Db) : list (Z * string) :=
  omap (fun u : ImapUid =>
          if bool_decide (uid_message_id u = message_id)
          then (fun f : Folder => (msg_uid u, name f)) <$> folders d !! uid_folder_id u
          else None)
       (imapuids d).

(** [mapping[folder_name].append(uid)] on a [defaultdict(list)]. *)
Definition defaultdict_append (mapping : gmap string (list Z)) (row : Z * string)
    : gmap string (list Z) :=
  <[row.2 := default [] (mapping !! row.2) ++ [row.1]]> mapping.

Definition uids_by_folder (message_id : Z) (d : Db) : gmap string (list Z) :=
  let results := query_msg_uid_folder_name message_id d in
  foldl defaultdict_append ∅ results.

(** [_create_email] reads the message and calls the builder; it touches
    neither the datastore nor the session, so it is embedded as a function to
    an [outcome].  [account] is not used. *)
Definition _create_email (account : option Account) (message : option Message)
    : outcome email :=
  match message with
  | None => Raised AttributeError              (* message.attachments *)
  | Some message =>
      let blocks := attachments message in
      let attachments := blocks in
      match from_addr message with
      | [] => Raised IndexError                (* message.from_addr[0] *)
      | (from_name, from_email) :: _ =>
          Returned {| e_from_name := from_name;
                      e_from_email := from_email;
                      e_reply_to := reply_to message;
                      e_inbox_uid := inbox_uid message;
                      e_to_addr := to_addr message;
                      e_cc_addr := cc_addr message;
                      e_bcc_addr := bcc_addr message;
                      e_subject := subject message;
                      e_html := body message;
                      e_in_reply_to := in_reply_to message;
                      e_references := references message;
                      e_attachments := attachments |}
      end
  end.

(** The items of a dict come in no specified order; [map_to_list] fixes one. *)
Definition _set_flag (account_id message_id : Z) (flag_name : string) (is_add : bool)
    : M R unit :=
  uids_for_message <- session_scope account_id
      (d <- db_session ;; ret (uids_by_folder message_id d)) ;;
  if bool_decide (uids_for_message = ∅) then
    log warning "No UIDs found for message"
  else
    writable_connection_pool_get account_id
      (for_each (map_to_list uids_for_message) (fun item =>
         let '(folder_name, uids) := item in
         _ <- crispin_client (select_folder folder_name) ;;
         if is_add
         then crispin_client (conn_add_flags uids [flag_name])
         else crispin_client (conn_remove_flags uids [flag_name]))).

Definition set_remote_starred (account message_id : Z) (starred : bool) : M R unit :=
  _set_flag account message_id "\Flagged" starred.

Definition set_remote_unread (account message_id : Z) (unread : bool) : M R unit :=
  _set_flag account message_id "\Seen" (negb unread).

Definition remote_move (account_id message_id : Z) (destination : string) : M R unit :=
  uids_for_message <- session_scope account_id
      (d <- db_session ;; ret (uids_by_folder message_id d)) ;;
  if bool_decide (uids_for_message = ∅) then
    log warning "No UIDs found for message"
  else
    writable_connection_pool_get account_id
      (for_each (map_to_list uids_for_message) (fun item =>
         let '(folder_name, uids) := item in
         _ <- crispin_client (select_folder folder_name) ;;
         _ <- crispin_client (conn_copy uids destination) ;;
         crispin_client (delete_uids uids))).

(** The first block of the three folder handlers: the account's provider and
    the category's display name. *)
Definition read_provider_and_display_name (account_id category_id : Z)
    : M R (string * string) :=
  session_scope account_id
    (account <- query_get accounts account_id ;;
     account_provider <- getattr account provider ;;
     category <- query_get categories category_id ;;
     display_name <- getattr category display_name ;;
     ret (account_provider, display_name)).

Definition remote_create_folder (account_id category_id : Z) : M R unit :=
  read <- read_provider_and_display_name account_id category_id ;;
  let '(account_provider, display_name) := read in
  new_display_name <- writable_connection_pool_get account_id
      (new_display_name <-
         (if not_in_gmail_eas account_provider then
            separator <- crispin_client folder_separator ;;
            prefix <- crispin_client folder_prefix ;;
            ret (imap_folder_path display_name separator prefix)
          else ret display_name) ;;
       _ <- crispin_client (conn_create_folder new_display_name) ;;
       ret new_display_name) ;;
  if bool_decide (new_display_name ≠ display_name) then
    session_scope account_id
      (category <- query_get categories category_id ;;
       set_display_name category_id category new_display_name)
  else ret tt.

Definition remote_update_folder (account_id category_id : Z) (old_name : string)
    : M R unit :=
  read <- read_provider_and_display_name account_id category_id ;;
  let '(account_provider, display_name) := read in
  new_display_name <- writable_connection_pool_get account_id
      (new_display_name <-
         (if not_in_gmail_eas account_provider then
            separator <- crispin_client folder_separator ;;
            prefix <- crispin_client folder_prefix ;;
            ret (imap_folder_path display_name separator prefix)
          else ret display_name) ;;
       _ <- crispin_client (conn_rename_folder old_name new_display_name) ;;
       ret new_display_name) ;;
  if bool_decide (new_display_name ≠ display_name) then
    session_scope account_id
      (category <- query_get categories category_id ;;
       set_display_name category_id category new_display_name)
  else ret tt.

Definition remote_delete_folder (account_id category_id : Z) : M R unit :=
  read <- read_provider_and_display_name account_id category_id ;;
  let '(account_provider, display_name) := read in
  _ <- writable_connection_pool_get account_id
      (try_except_IMAP4_error
         (display_name <-
            (if not_in_gmail_eas account_provider then
               separator <- crispin_client folder_separator ;;
               prefix <- crispin_client folder_prefix ;;
               ret (imap_folder_path display_name separator prefix)
             else ret display_name) ;;
          crispin_client (conn_delete_folder display_name))) ;;
  session_scope account_id
    (category <- query_get categories category_id ;;
     _ <- db_delete category_id category ;;
     db_commit).

(** ['drafts' in d] *)
Definition contains {A} (d : gmap string A) (key : string) : bool :=
  bool_decide (is_Some (d !! key)).

Definition remote_save_draft (account_id message_id : Z) : M R unit :=
  mimemsg <- session_scope account_id
      (account <- query_get accounts account_id ;;
       message <- query_get messages message_id ;;
       lift (_create_email account message)) ;;
  writable_connection_pool_get account_id
    (names <- crispin_client folder_names ;;
     if negb (contains names "drafts") then
       log info "Account has no detected drafts folder; not saving draft"
     else
       names <- crispin_client folder_names ;;
       drafts <- getitem names "drafts" ;;
       folder_name <- first_item drafts ;;
       _ <- crispin_client (select_folder folder_name) ;;
       crispin_client (save_draft mimemsg)).

Definition remote_update_draft (account_id message_id : Z)
    (old_message_id_header : string) : M R unit :=
  read <- session_scope account_id
      (account <- query_get accounts account_id ;;
       message <- query_get messages message_id ;;
       message_id_header <- getattr message message_id_header ;;
       message_public_id <- getattr message public_id ;;
       version <- getattr message version ;;
       mimemsg <- lift (_create_email account message) ;;
       ret (message_id_header, mimemsg)) ;;
  let '(message_id_header, mimemsg) := read in
  writable_connection_pool_get account_id
    (names <- crispin_client folder_names ;;
     if negb (contains names "drafts") then
       log info "Account has no drafts folder. Will not save draft."
     else
       names <- crispin_client folder_names ;;
       drafts <- getitem names "drafts" ;;
       folder_name <- first_item drafts ;;
       _ <- crispin_client (select_folder folder_name) ;;
       existing_new_draft <- crispin_client (find_by_header "Message-Id" message_id_header) ;;
       _ <- (if negb (bool_decide (is_Some existing_new_draft))
             then crispin_client (save_draft mimemsg)
             else log info "Draft has been saved, will not create a duplicate.") ;;
       old_version_deleted <- crispin_client (delete_draft old_message_id_header) ;;
       if old_version_deleted : bool
       then log info "Cleaned up old draft"
       else ret tt).

Definition remote_delete_draft (account_id : Z) (inbox_uid message_id_header : string)
    : M R unit :=
  writable_connection_pool_get account_id
    (names <- crispin_client folder_names ;;
     if negb (contains names "drafts") then
       log info "Account has no detected drafts folder; not deleting draft"
     else
       _ <- crispin_client (delete_draft message_id_header) ;;
       ret tt).

Definition remote_delete_sent (account_id : Z) (message_id_header : string)
    (delete_multiple : bool) : M R unit :=
  writable_connection_pool_get account_id
    (names <- crispin_client folder_names ;;
     if negb (contains names "sent") then
       log info "Account has no detected sent folder; not deleting message"
     else
       crispin_client (delete_sent_message message_id_header delete_multiple)).

Definition remote_save_sent (account_id message_id : Z) : M R unit :=
  built <- session_scope account_id
      (account <- query_get accounts account_id ;;
       message <- query_get messages message_id ;;
       match message with
       | None =>
           _ <- log info "tried to create nonexistent message" ;;
           ret None
       | Some _ =>
           mimemsg <- lift (_create_email account message) ;;
           ret (Some mimemsg)
       end) ;;
  match built with
  | None => ret tt
  | Some mimemsg =>
      writable_connection_pool_get account_id
        (names <- crispin_client folder_names ;;
         if negb (contains names "sent") then
           log info "Account has no detected sent folder; not saving message"
         else
           names <- crispin_client folder_names ;;
           sent <- getitem names "sent" ;;
           folder_name <- first_item sent ;;
           _ <- crispin_client (select_folder folder_name) ;;
           crispin_client (create_message mimemsg))
  end.

End Handlers.

(** ** A reference connection session *)

(** Modelled from the spec: the connection session (inbox.crispin) is missing
    from the sources.  The specification gives its contract: the folder
    separator and prefix, the role-to-folder-names mapping, folder creation,
    renaming and deletion (deleting a folder that does not exist raises a
    not-found condition), [find_by_header] answering a message or none,
    [save_draft] appending to the drafts folder, and [delete_draft] deleting
    the first draft whose Message-Id header matches and answering whether one
    was found.  [mb_message_id] reads the Message-Id header of a stored
    message. *)
Record mailbox := {
  mb_separator : string;
  mb_prefix : string;
  mb_folder_names : gmap string (list string);
  mb_folders : list string;
  mb_drafts : list (Z * email);
  mb_uidnext : Z;
  mb_message_id : email -> string
}.

Definition with_folders (mb : mailbox) (l : list string) : mailbox :=
  {| mb_separator := mb_separator mb;
     mb_prefix := mb_prefix mb;
     mb_folder_names := mb_folder_names mb;
     mb_folders := l;
     mb_drafts := mb_drafts mb;
     mb_uidnext := mb_uidnext mb;
     mb_message_id := mb_message_id mb |}.

Definition with_drafts (mb : mailbox) (l : list (Z * email)) (uidnext : Z) : mailbox :=
  {| mb_separator := mb_separator mb;
     mb_prefix := mb_prefix mb;
     mb_folder_names := mb_folder_names mb;
     mb_folders := mb_folders mb;
     mb_drafts := l;
     mb_uidnext := uidnext;
     mb_message_id := mb_message_id mb |}.

(** The first draft whose Message-Id header is [value], if any. *)
Fixpoint find_draft (message_id : email -> string) (value : string)
    (l : list (Z * email)) : option Z :=
  match l with
  | [] => None
  | d :: l' =>
      if String.eqb (message_id d.2) value then Some d.1
      else find_draft message_id value l'
  end.

(** The drafts without the first one whose Message-Id header is [value]. *)
Fixpoint delete_first_draft (message_id : email -> string) (value : string)
    (l : list (Z * email)) : list (Z * email) :=
  match l with
  | [] => []
  | d :: l' =>
      if String.eqb (message_id d.2) value then l'
      else d :: delete_first_draft message_id value l'
  end.

(** Modelled from the spec: the answers of the connection session
    (inbox.crispin, missing from the sources), call by call. *)
Definition mailbox_answer (c : call) (mb : mailbox) : outcome (resp_type c) * mailbox :=
  match c as c0 return outcome (resp_type c0) * mailbox with
  | folder_separator => (Returned (mb_separator mb), mb)
  | folder_prefix => (Returned (mb_prefix mb), mb)
  | folder_names => (Returned (mb_folder_names mb), mb)
  | conn_create_folder folder_name =>
      (Returned tt, with_folders mb (mb_folders mb ++ [folder_name]))
  | conn_rename_folder old_name new_name =>
      (Returned tt,
       with_folders mb
         ((fun f => if String.eqb f old_name then new_name else f) <$> mb_folders mb))
  | conn_delete_folder folder_name =>
      if bool_decide (folder_name ∈ mb_folders mb)
      then (Returned tt,
            with_folders mb
              (filter (fun f => f ≠ folder_name) (mb_folders mb)))
      else (Raised (IMAP4_error "[NONEXISTENT] Mailbox does not exist"), mb)
  | find_by_header header value =>
      (Returned (if String.eqb header "Message-Id"
                 then find_draft (mb_message_id mb) value (mb_drafts mb)
                 else None), mb)
  | save_draft mimemsg =>
      (Returned tt,
       with_drafts mb (mb_drafts mb ++ [(mb_uidnext mb, mimemsg)]) (mb_uidnext mb + 1))
  | delete_draft value =>
      match find_draft (mb_message_id mb) value (mb_drafts mb) with
      | Some _ =>
          (Returned true,
           with_drafts mb (delete_first_draft (mb_message_id mb) value (mb_drafts mb))
             (mb_uidnext mb))
      | None => (Returned false, mb)
      end
  | select_folder _ => (Returned tt, mb)
  | conn_add_flags _ _ => (Returned tt, mb)
  | conn_remove_flags _ _ => (Returned tt, mb)
  | conn_copy _ _ => (Returned tt, mb)
  | delete_uids _ => (Returned tt, mb)
  | delete_sent_message _ _ => (Returned tt, mb)
  | create_message _ => (Returned tt, mb)
  end.

#[export] Instance mailbox_session : Crispin mailbox := mailbox_answer.

(** Modelled from the spec: a session on which any call may also end in a
    protocol failure (authentication, network, quota, permission, ...):
    [failure] lists the calls that fail and what they raise; the other calls
    are answered by the mailbox. *)
Record unreliable := {
  failure : call -> option exn;
  mailbox_of : mailbox
}.

#[export] Instance unreliable_session : Crispin unreliable :=
  fun c u =>
    match failure u c with
    | Some e => (Raised e, u)
    | None =>
        match mailbox_answer c (mailbox_of u) with
        | (o, mb) => (o, {| failure := failure u; mailbox_of := mb |})
        end
    end.

(** How many drafts carry the Message-Id header [value]. *)
Definition count_drafts (message_id : email -> string) (value : string)
    (l : list (Z * email)) : nat :=
  length (List.filter (fun d => String.eqb (message_id d.2) value) l).

Definition drafts_with (value : string) (mb : mailbox) : nat :=
  count_drafts (mb_message_id mb) value (mb_drafts mb).

(** The calls of a trace, in order. *)
Definition calls_of (t : list event) : list call :=
  omap (fun e => match e with Call c => Some c | _ => None end) t.

Definition is_save_draft (c : call) : bool :=
  match c with save_draft _ => true | _ => false end.

(** How many times a draft was appended in a trace. *)
Definition saved_drafts (t : list event) : nat :=
  length (List.filter is_save_draft (calls_of t)).

(** ** Expected traces *)

(** What [_set_flag] does for one folder of the mapping. *)
Definition flag_block (flag_name : string) (is_add : bool) (item : string * list Z)
    : list event :=
  [Call (select_folder item.1);
   Call (if is_add then conn_add_flags item.2 [flag_name]
         else conn_remove_flags item.2 [flag_name])].

(** What [remote_move] does for one source folder of the mapping. *)
Definition move_block (destination : string) (item : string * list Z) : list event :=
  [Call (select_folder item.1);
   Call (conn_copy item.2 destination);
   Call (delete_uids item.2)].

(** The UIDs copied to [destination] in a trace, one entry per copy made. *)
Definition copied_uids (destination : string) (t : list event) : list Z :=
  mjoin (omap (fun c => match c with
                        | conn_copy uids d =>
                            if String.eqb d destination then Some uids else None
                        | _ => None
                        end) (calls_of t)).

(** The session properties read to translate a folder name. *)
Definition translation_calls (account_provider : string) : list event :=
  if not_in_gmail_eas account_provider
  then [Call folder_separator; Call folder_prefix]
  else [].

(** What [remote_update_draft] does on a session with a drafts folder, given
    what the search for the new header and the deletion of the old one
    answered. *)
Definition update_draft_events (account_id : Z) (folder_name : string)
    (message_id_header old_message_id_header : string) (mimemsg : email)
    (existing_new_draft : option Z) (old_version_deleted : bool) : list event :=
  [Acquire account_id; Call folder_names; Call folder_names;
   Call (select_folder folder_name);
   Call (find_by_header "Message-Id" message_id_header)]
  ++ match existing_new_draft with
     | Some _ => [Log info "Draft has been saved, will not create a duplicate."]
     | None => [Call (save_draft mimemsg)]
     end
  ++ [Call (delete_draft old_message_id_header)]
  ++ (if old_version_deleted then [Log info "Cleaned up old draft"] else [])
  ++ [Release account_id].

(** A session that answers the calls of a list of events, whatever its
    state. *)
Definition answers (R : Type) `{Crispin R} (events : list event) : Prop :=
  forall (c : call) (r : R), Call c ∈ events -> is_returned (respond c r).1 = true.

(** ** A worked example

    A generic IMAP account and a gmail account; a category "Work/Invoices"; a
    draft (message 3) that sits at UID 5 of Inbox and UID 9 of Work, a message
    without sender (message 5), and no message 4.  The remote mailbox uses the
    separator "." and the prefix "INBOX.", has a drafts folder and no sent
    folder. *)

Definition example_message : Message :=
  {| attachments := [21];
     from_addr := [("Ann", "ann@example.com")];
     reply_to := [];
     inbox_uid := "c3p0";
     to_addr := [("Bob", "bob@example.com")];
     cc_addr := [];
     bcc_addr := [];
     subject := "Invoice";
     body := "<p>Please find the invoice attached.</p>";
     in_reply_to := "";
     references := [];
     message_id_header := "<c3p0@mailer.nylas.com>";
     public_id := "pub3";
     version := 2 |}.

Definition example_message_without_sender : Message :=
  {| attachments := [];
     from_addr := [];
     reply_to := [];
     inbox_uid := "r2d2";
     to_addr := [];
     cc_addr := [];
     bcc_addr := [];
     subject := "";
     body := "";
     in_reply_to := "";
     references := [];
     message_id_header := "<r2d2@mailer.nylas.com>";
     public_id := "pub5";
     version := 0 |}.

Definition example_email : email :=
  {| e_from_name := "Ann";
     e_from_email := "ann@example.com";
     e_reply_to := [];
     e_inbox_uid := "c3p0";
     e_to_addr := [("Bob", "bob@example.com")];
     e_cc_addr := [];
     e_bcc_addr := [];
     e_subject := "Invoice";
     e_html := "<p>Please find the invoice attached.</p>";
     e_in_reply_to := "";
     e_references := [];
     e_attachments := [21] |}.

Definition example_db : Db :=
  {| accounts := {[ 1 := {| provider := "generic" |};
                    2 := {| provider := "gmail" |} ]};
     categories := {[ 7 := {| display_name := "Work/Invoices" |} ]};
     messages := {[ 3 := example_message; 5 := example_message_without_sender ]};
     folders := {[ 10 := {| name := "Inbox" |}; 11 := {| name := "Work" |} ]};
     imapuids := [ {| uid_message_id := 3; msg_uid := 5; uid_folder_id := 10 |};
                   {| uid_message_id := 3; msg_uid := 9; uid_folder_id := 11 |} ] |}.

Definition example_mailbox : mailbox :=
  {| mb_separator := ".";
     mb_prefix := "INBOX.";
     mb_folder_names := {[ "inbox" := ["INBOX"]; "drafts" := ["INBOX.Drafts"] ]};
     mb_folders := ["INBOX"; "INBOX.Drafts"];
     mb_drafts := [];
     mb_uidnext := 1;
     mb_message_id := fun e => "<" +:+ e_inbox_uid e +:+ "@mailer.nylas.com>" |}.

Definition example_world : world mailbox := World example_db example_mailbox [].

(** The same mailbox behind a session on which the deletion of a folder is
    refused for lack of permission. *)
Definition permission_denied : unreliable :=
  {| failure := fun c =>
       match c with
       | conn_delete_folder _ =>
           Some (IMAP4_error "delete failed: [NOPERM] Permission denied")
       | _ => None
       end;
     mailbox_of := with_folders example_mailbox
                     ["INBOX"; "INBOX.Drafts"; "INBOX.Work.Invoices"] |}.

(** The same mailbox behind a session whose connection is lost when the
    deletion of a folder is sent. *)
Definition connection_lost : unreliable :=
  {| failure := fun c =>
       match c with
       | conn_delete_folder _ => Some (socket_error "[Errno 104] Connection reset by peer")
       | _ => None
       end;
     mailbox_of := example_mailbox |}.

(** The calls the reference session answers in every state. *)
Definition always_answered (e : event) : bool :=
  match e with
  | Call (conn_delete_folder _) => false
  | _ => true
  end.

(** ** More of the worked example *)

(** The example mailbox with a sent folder. *)
Definition mailbox_with_sent : mailbox :=
  {| mb_separator := ".";
     mb_prefix := "INBOX.";
     mb_folder_names := {[ "inbox" := ["INBOX"]; "drafts" := ["INBOX.Drafts"];
                           "sent" := ["INBOX.Sent"; "INBOX.Sent Items"] ]};
     mb_folders := ["INBOX"; "INBOX.Drafts"; "INBOX.Sent"; "INBOX.Sent Items"];
     mb_drafts := [];
     mb_uidnext := 1;
     mb_message_id := mb_message_id example_mailbox |}.

(** The example mailbox with neither a 'drafts' nor a 'sent' role. *)
Definition mailbox_without_roles : mailbox :=
  {| mb_separator := ".";
     mb_prefix := "INBOX.";
     mb_folder_names := {[ "inbox" := ["INBOX"] ]};
     mb_folders := ["INBOX"];
     mb_drafts := [];
     mb_uidnext := 1;
     mb_message_id := mb_message_id example_mailbox |}.

(** The example mailbox with a 'drafts' role under which no folder is
    listed. *)
Definition mailbox_with_unnamed_drafts : mailbox :=
  {| mb_separator := ".";
     mb_prefix := "INBOX.";
     mb_folder_names := {[ "inbox" := ["INBOX"]; "drafts" := [] ]};
     mb_folders := ["INBOX"];
     mb_drafts := [];
     mb_uidnext := 1;
     mb_message_id := mb_message_id example_mailbox |}.

(** The example mailbox behind a session on which copies are refused because
    the quota is exceeded. *)
Definition copy_refused : unreliable :=
  {| failure := fun c =>
       match c with
       | conn_copy _ _ => Some (IMAP4_error "copy failed: [OVERQUOTA] Quota exceeded")
       | _ => None
       end;
     mailbox_of := example_mailbox |}.

(** The example mailbox behind a session on which appending a draft is
    refused because the quota is exceeded. *)
Definition append_refused : unreliable :=
  {| failure := fun c =>
       match c with
       | save_draft _ => Some (IMAP4_error "append failed: [OVERQUOTA] Quota exceeded")
       | _ => None
       end;
     mailbox_of := example_mailbox |}.

(** The example mailbox behind a session on which the creation of a folder is
    refused. *)
Definition create_refused : unreliable :=
  {| failure := fun c =>
       match c with
       | conn_create_folder _ =>
           Some (IMAP4_error "create failed: [ALREADYEXISTS] Mailbox already exists")
       | _ => None
       end;
     mailbox_of := example_mailbox |}.

(** The example mailbox behind a session whose connection drops when the
    folder separator is asked for. *)
Definition separator_unavailable : unreliable :=
  {| failure := fun c =>
       match c with
       | folder_separator => Some (IMAP4_abort "socket error: EOF")
       | _ => None
       end;
     mailbox_of := example_mailbox |}.

(** ** Runs of calls on the session *)

(** The calls of a list made one after the other on the session, up to the
    first one that raises: how the run ends, the state the session is left in
    and the calls made (the one that raised included).  What the calls that
    return answer is dropped, as the loops of the handlers drop it. *)
Fixpoint session_run {R} `{Crispin R} (calls : list call) (r : R)
    : outcome unit * R * list event :=
  match calls with
  | [] => (Returned tt, r, [])
  | c :: rest =>
      match respond c r with
      | (Returned _, r') =>
          match session_run rest r' with
          | (o, r'', events) => (o, r'', Call c :: events)
          end
      | (Raised e, r') => (Raised e, r', [Call c])
      end
  end.

(** A computation that is the run of a list of calls on the session: it ends
    as the run ends, leaves the session where the run leaves it, keeps the
    datastore and adds the calls made to the trace. *)
Definition performs {R} `{Crispin R} (m : M R unit) (calls : list call) : Prop :=
  forall w : world R,
    m w = match session_run calls (remote w) with
          | (o, r', events) => (o, World (db w) r' (trace w ++ events))
          end.

(** A handler that acquires the session, runs a list of calls on it and
    releases it. *)
Definition performs_in_session {R} `{Crispin R} (account_id : Z) (m : M R unit)
    (calls : list call) (w : world R) : Prop :=
  m w = match session_run calls (remote w) with
        | (o, r', events) =>
            (o, World (db w) r'
                  (trace w ++ [Acquire account_id] ++ events ++ [Release account_id]))
        end.

(** ** Scoping of the session and of the datastore *)

(** What may happen while the session is held: calls and log lines. *)
Definition in_session (e : event) : bool :=
  match e with
  | Call _ | Log _ _ => true
  | _ => false
  end.

(** What may happen while the session is not held: log lines and datastore
    writes. *)
Definition out_of_session (e : event) : bool :=
  match e with
  | Acquire _ | Release _ | Call _ => false
  | _ => true
  end.

(** A trace is scoped when the session of the account is acquired and released
    in turn, is not held at the end, calls are made only while it is held and
    the datastore is written only while it is not. *)
Fixpoint scoped (account_id : Z) (held : bool) (events : list event) : bool :=
  match events with
  | [] => negb held
  | Acquire a :: rest =>
      negb held && bool_decide (a = account_id) && scoped account_id true rest
  | Release a :: rest =>
      held && bool_decide (a = account_id) && scoped account_id false rest
  | Call _ :: rest => held && scoped account_id held rest
  | Log _ _ :: rest => scoped account_id held rest
  | _ :: rest => negb held && scoped account_id held rest
  end.

(** A computation that leaves the datastore as it is and only adds events
    accepted by [ok] to the trace, however it ends. *)
Definition quiet {R A} (ok : event -> bool) (m : M R A) : Prop :=
  forall w : world R,
    db (m w).2 = db w
    /\ exists events, trace (m w).2 = trace w ++ events /\ forallb ok events = true.

(** A computation that only adds a scoped run of events to the trace, however
    it ends. *)
Definition scoped_handler {R A} (account_id : Z) (m : M R A) : Prop :=
  forall w : world R,
    exists events,
      trace (m w).2 = trace w ++ events /\ scoped account_id false events = true.

(** The UIDs of the rows of a query result that lie in a folder, in the order
    of the rows. *)
Definition uids_in (folder_name : string) (rows : list (Z * string)) : list Z :=
  omap (fun row : Z * string =>
          if bool_decide (row.2 = folder_name) then Some row.1 else None) rows.

(** * Properties *)

Section Properties.

Context {R : Type} `{Crispin R}.

(** ** The resolver *)

Lemma query_no_rows (message_id : Z) (d : Db) :
  (forall u, u ∈ imapuids d -> uid_message_id u ≠ message_id) ->
  query_msg_uid_folder_name message_id d = [].
Proof.
  unfold query_msg_uid_folder_name.
  induction (imapuids d) as [|u l IH]; intros Hno; [reflexivity|].
  cbn [omap list_omap].
  rewrite bool_decide_eq_false_2 by (apply Hno; left).
  apply IH. intros u' Hu'. apply Hno. by right.
Qed.

Lemma defaultdict_append_non_empty (mapping : gmap string (list Z)) row :
  defaultdict_append mapping row ≠ ∅.
Proof. unfold defaultdict_append. apply insert_non_empty. Qed.

Lemma foldl_defaultdict_append_non_empty rows (mapping : gmap string (list Z)) :
  mapping ≠ ∅ -> foldl defaultdict_append mapping rows ≠ ∅.
Proof.
  revert mapping. induction rows as [|row rows IH]; intros mapping Hne; [done|].
  cbn [foldl]. apply IH, defaultdict_append_non_empty.
Qed.

(** The mapping is empty exactly when the query answers no row. *)
Lemma uids_by_folder_empty_iff (message_id : Z) (d : Db) :
  uids_by_folder message_id d = ∅ <-> query_msg_uid_folder_name message_id d = [].
Proof.
  unfold uids_by_folder. split.
  - destruct (query_msg_uid_folder_name message_id d) as [|row rows]; [done|].
    cbn [foldl]. intros Hempty. exfalso.
    by apply (foldl_defaultdict_append_non_empty rows
                (defaultdict_append ∅ row) (defaultdict_append_non_empty _ _)).
  - intros ->. reflexivity.
Qed.

(** C1: when the resolver answers an empty mapping for a message, both flag
    actions and the move log a warning and return normally; the session is not
    acquired and no call is made on it (the remote state is untouched and the
    only event is the log line).  The resolver answers the empty mapping, and
    cannot raise, when the message has no Remote-UID row. *)
Theorem no_remote_uids_is_noop (w : world R) (account_id message_id : Z)
    (flag : bool) (destination : string) :
  ((forall u, u ∈ imapuids (db w) -> uid_message_id u ≠ message_id) ->
   uids_by_folder message_id (db w) = ∅)
  /\ (uids_by_folder message_id (db w) = ∅ ->
      let w' := World (db w) (remote w)
                  (trace w ++ [Log warning "No UIDs found for message"]) in
      set_remote_starred account_id message_id flag w = (Returned tt, w')
      /\ set_remote_unread account_id message_id flag w = (Returned tt, w')
      /\ remote_move account_id message_id destination w = (Returned tt, w')
      /\ List.filter is_session_event [Log warning "No UIDs found for message"] = []).
Proof.
  split.
  - intros Hno. apply uids_by_folder_empty_iff. by apply query_no_rows.
  - intros Hempty w'.
    unfold set_remote_starred, set_remote_unread, _set_flag, remote_move.
    unfold bind, session_scope, db_session, ret. cbn [fst snd].
    rewrite Hempty. rewrite bool_decide_eq_true_2 by reflexivity.
    repeat split; reflexivity.
Qed.

(** ** Drafts and sent messages *)

(** C9: [remote_delete_draft] never reads [inbox_uid]: two invocations that
    differ only in it make the same calls, leave the same world and have the
    same outcome. *)
Theorem remote_delete_draft_ignores_inbox_uid (w : world R) (account_id : Z)
    (inbox_uid1 inbox_uid2 message_id_header : string) :
  remote_delete_draft account_id inbox_uid1 message_id_header w
  = remote_delete_draft account_id inbox_uid2 message_id_header w.
Proof. reflexivity. Qed.

Lemma _create_email_returns (account : option Account) (m : Message) :
  from_addr m ≠ [] -> exists e, _create_email account (Some m) = Returned e.
Proof.
  intros Hfrom. unfold _create_email.
  destruct (from_addr m) as [|[from_name from_email] rest]; [done|]. eauto.
Qed.

(** C8: [remote_save_sent] returns normally, after a log line and without
    acquiring the session, when the message row is gone; it also returns
    normally, without creating the message, when the folder mapping of the
    account has no 'sent' role. *)
Theorem remote_save_sent_noops (w : world R) (account_id message_id : Z) :
  (messages (db w) !! message_id = None ->
   remote_save_sent account_id message_id w
   = (Returned tt,
      World (db w) (remote w)
        (trace w ++ [Log info "tried to create nonexistent message"])))
  /\ (forall (m : Message) (names : gmap string (list string)) (r' : R),
      messages (db w) !! message_id = Some m ->
      from_addr m ≠ [] ->
      respond folder_names (remote w) = (Returned names, r') ->
      names !! "sent" = None ->
      remote_save_sent account_id message_id w
      = (Returned tt,
         World (db w) r'
           (trace w ++ [Acquire account_id; Call folder_names;
                        Log info "Account has no detected sent folder; not saving message";
                        Release account_id]))).
Proof.
  split.
  - intros Hnone.
    unfold remote_save_sent, bind, session_scope, query_get, ret, log, emit.
    cbn [fst snd]. rewrite Hnone. reflexivity.
  - intros m names r' Hm Hfrom Hnames Hsent.
    destruct (_create_email_returns (accounts (db w) !! account_id) m Hfrom)
      as [e He].
    unfold remote_save_sent, bind, session_scope, query_get, ret, lift.
    cbn [fst snd]. rewrite Hm, He.
    unfold writable_connection_pool_get, crispin_client. cbn [db remote trace].
    rewrite Hnames. unfold contains.
    rewrite bool_decide_eq_false_2 by (rewrite Hsent; apply is_Some_None).
    cbn [negb]. unfold log, emit. cbn [db remote trace].
    rewrite <- !app_assoc. reflexivity.
Qed.

(** C10: the draft handlers do not check that the message row exists.  With a
    missing row [remote_save_draft] and [remote_update_draft] raise from the
    message-building block, before the session is acquired and without a log
    line, where [remote_save_sent] returns normally; with an existing row whose
    [from_addr] is not empty the message is built; with an empty [from_addr]
    the handlers raise as well. *)
Theorem draft_handlers_require_message (w : world R) (account_id message_id : Z)
    (old_message_id_header : string) :
  (messages (db w) !! message_id = None ->
   remote_save_draft account_id message_id w = (Raised AttributeError, w)
   /\ remote_update_draft account_id message_id old_message_id_header w
      = (Raised AttributeError, w)
   /\ (remote_save_sent account_id message_id w).1 = Returned tt)
  /\ (forall m : Message,
      messages (db w) !! message_id = Some m ->
      from_addr m ≠ [] ->
      exists e, _create_email (accounts (db w) !! account_id)
                  (messages (db w) !! message_id) = Returned e)
  /\ (forall m : Message,
      messages (db w) !! message_id = Some m ->
      from_addr m = [] ->
      remote_save_draft account_id message_id w = (Raised IndexError, w)
      /\ remote_update_draft account_id message_id old_message_id_header w
         = (Raised IndexError, w)).
Proof.
  destruct w as [d r t]. cbn [db]. split; [|split].
  - intros Hnone. split; [|split].
    + unfold remote_save_draft, bind, session_scope, query_get, lift.
      cbn [db remote trace]. rewrite Hnone. reflexivity.
    + unfold remote_update_draft, bind, session_scope, query_get, getattr, raise.
      cbn [db remote trace]. rewrite Hnone. reflexivity.
    + unfold remote_save_sent, bind, session_scope, query_get, ret, log, emit.
      cbn [db remote trace]. rewrite Hnone. reflexivity.
  - intros m Hm Hfrom. rewrite Hm. by apply _create_email_returns.
  - intros m Hm Hfrom. split.
    + unfold remote_save_draft, bind, session_scope, query_get, lift, _create_email.
      cbn [db remote trace]. rewrite Hm, Hfrom. reflexivity.
    + unfold remote_update_draft, bind, session_scope, query_get, getattr, ret,
        lift, _create_email.
      cbn [db remote trace]. rewrite Hm. cbn. rewrite Hfrom. reflexivity.
Qed.

(** ** Folders *)

Lemma string_append_assoc (a b c : string) : (a +:+ b) +:+ c = a +:+ b +:+ c.
Proof.
  induction a as [|x a IH]; [reflexivity|].
  change (String x ((a +:+ b) +:+ c) = String x (a +:+ b +:+ c)).
  by rewrite IH.
Qed.

Lemma substitute_separator_app (separator a b : string) :
  substitute_separator separator (a +:+ b)
  = substitute_separator separator a +:+ substitute_separator separator b.
Proof.
  induction a as [|c a IH]; [reflexivity|].
  change (String c a +:+ b) with (String c (a +:+ b)).
  cbn [substitute_separator]. rewrite IH.
  destruct (Ascii.eqb c "/"); [|reflexivity].
  by rewrite string_append_assoc.
Qed.

Lemma substitute_separator_id (separator a : string) :
  "/"%char ∉ list_ascii_of_string a -> substitute_separator separator a = a.
Proof.
  induction a as [|c a IH]; [reflexivity|].
  cbn [list_ascii_of_string substitute_separator]. intros Hnot.
  destruct (Ascii.eqb_spec c "/") as [->|_].
  - exfalso. apply Hnot. left.
  - f_equal. apply IH. intros Hin. apply Hnot. by right.
Qed.

Lemma read_provider_and_display_name_returns (w : world R) (account_id category_id : Z)
    (account : Account) (category : Category) :
  accounts (db w) !! account_id = Some account ->
  categories (db w) !! category_id = Some category ->
  read_provider_and_display_name account_id category_id w
  = (Returned (provider account, display_name category), w).
Proof.
  intros Ha Hc.
  unfold read_provider_and_display_name, bind, session_scope, query_get, getattr, ret.
  rewrite Ha. cbn. rewrite Hc. reflexivity.
Qed.

Lemma calls_of_app (events events' : list event) :
  calls_of (events ++ events') = calls_of events ++ calls_of events'.
Proof. unfold calls_of. apply omap_app. Qed.

(** The whole run of [remote_create_folder] on a session that answers the
    separator and the prefix, whatever the create call does. *)
Lemma remote_create_folder_run (w : world R) (account_id category_id : Z)
    (account : Account) (category : Category) (separator prefix : string)
    (r1 r2 r3 : R) (o : outcome unit) :
  accounts (db w) !! account_id = Some account ->
  categories (db w) !! category_id = Some category ->
  (if not_in_gmail_eas (provider account)
   then respond folder_separator (remote w) = (Returned separator, r1)
        /\ respond folder_prefix r1 = (Returned prefix, r2)
   else r2 = remote w) ->
  let new_display_name :=
    if not_in_gmail_eas (provider account)
    then prefix +:+ substitute_separator separator (display_name category)
    else display_name category in
  respond (conn_create_folder new_display_name) r2 = (o, r3) ->
  let remote_events :=
    [Acquire account_id]
    ++ (if not_in_gmail_eas (provider account)
        then [Call folder_separator; Call folder_prefix] else [])
    ++ [Call (conn_create_folder new_display_name); Release account_id] in
  remote_create_folder account_id category_id w
  = match o with
    | Returned _ =>
        (Returned tt,
         if bool_decide (new_display_name ≠ display_name category)
         then World (with_categories (db w)
                       (<[category_id := {| display_name := new_display_name |}]>
                          (categories (db w))))
                r3
                (trace w ++ remote_events
                 ++ [DbSetDisplayName category_id new_display_name])
         else World (db w) r3 (trace w ++ remote_events))
    | Raised e => (Raised e, World (db w) r3 (trace w ++ remote_events))
    end.
Proof.
  intros Ha Hc Htr new_display_name Hcreate remote_events.
  unfold remote_create_folder, bind at 1.
  rewrite (read_provider_and_display_name_returns w _ _ _ _ Ha Hc).
  subst new_display_name remote_events.
  unfold writable_connection_pool_get, bind, crispin_client, ret, imap_folder_path.
  destruct (not_in_gmail_eas (provider account)).
  - destruct Htr as [Hsep Hpre]. cbn [db remote trace].
    rewrite Hsep. cbn [db remote trace]. rewrite Hpre. cbn [db remote trace].
    rewrite Hcreate. destruct o as [[]|e]; cbn [db remote trace].
    + case_bool_decide.
      * unfold session_scope, bind, query_get, set_display_name.
        cbn [db remote trace]. rewrite Hc. cbn [db remote trace].
        rewrite <- !app_assoc. reflexivity.
      * rewrite <- !app_assoc. reflexivity.
    + rewrite <- !app_assoc. reflexivity.
  - subst r2. cbn [db remote trace].
    rewrite Hcreate. destruct o as [[]|e]; cbn [db remote trace].
    + rewrite bool_decide_eq_false_2 by (intros Hne; by apply Hne).
      rewrite <- !app_assoc. reflexivity.
    + rewrite <- !app_assoc. reflexivity.
Qed.

Lemma not_in_gmail_eas_false (account_provider : string) :
  account_provider = "gmail" \/ account_provider = "eas" ->
  not_in_gmail_eas account_provider = false.
Proof.
  intros Hflat. unfold not_in_gmail_eas.
  rewrite bool_decide_eq_true_2; [reflexivity|]. rewrite !elem_of_cons. tauto.
Qed.

Lemma not_in_gmail_eas_true (account_provider : string) :
  account_provider ≠ "gmail" -> account_provider ≠ "eas" ->
  not_in_gmail_eas account_provider = true.
Proof.
  intros Hgmail Heas. unfold not_in_gmail_eas.
  rewrite bool_decide_eq_false_2; [reflexivity|].
  rewrite !elem_of_cons, elem_of_nil. tauto.
Qed.

(** C4: the folder name [remote_create_folder] sends to the remote is a
    function of the provider, the display name, and the separator and prefix
    the session reports.  For gmail and eas the handler reads neither
    separator nor prefix and sends the display name unchanged (and writes
    nothing back); for every other provider it sends the prefix followed by
    the display name in which every ['/'] is replaced by the separator
    (components free of ['/'] are kept as they are).  With the separator "."
    and the prefix "INBOX.", "Work/Invoices" is sent as "INBOX.Work.Invoices";
    under gmail it is sent as "Work/Invoices". *)
Theorem folder_name_translation (w : world R) (account_id category_id : Z)
    (account : Account) (category : Category) :
  accounts (db w) !! account_id = Some account ->
  categories (db w) !! category_id = Some category ->
  (provider account = "gmail" \/ provider account = "eas" ->
   forall (o : outcome unit) (r3 : R),
     respond (conn_create_folder (display_name category)) (remote w) = (o, r3) ->
     remote_create_folder account_id category_id w
     = (match o with Returned _ => Returned tt | Raised e => Raised e end,
        World (db w) r3
          (trace w ++ [Acquire account_id;
                       Call (conn_create_folder (display_name category));
                       Release account_id])))
  /\ (provider account ≠ "gmail" -> provider account ≠ "eas" ->
      forall (separator prefix : string) (r1 r2 r3 : R) (o : outcome unit),
        respond folder_separator (remote w) = (Returned separator, r1) ->
        respond folder_prefix r1 = (Returned prefix, r2) ->
        let folder_name :=
          prefix +:+ substitute_separator separator (display_name category) in
        respond (conn_create_folder folder_name) r2 = (o, r3) ->
        let remote_events :=
          [Acquire account_id; Call folder_separator; Call folder_prefix;
           Call (conn_create_folder folder_name); Release account_id] in
        remote_create_folder account_id category_id w
        = match o with
          | Returned _ =>
              (Returned tt,
               if bool_decide (folder_name ≠ display_name category)
               then World (with_categories (db w)
                             (<[category_id := {| display_name := folder_name |}]>
                                (categories (db w))))
                      r3
                      (trace w ++ remote_events
                       ++ [DbSetDisplayName category_id folder_name])
               else World (db w) r3 (trace w ++ remote_events))
          | Raised e => (Raised e, World (db w) r3 (trace w ++ remote_events))
          end)
  /\ (forall separator a b : string,
      substitute_separator separator (a +:+ "/" +:+ b)
      = substitute_separator separator a +:+ separator
        +:+ substitute_separator separator b)
  /\ (forall separator a : string,
      "/"%char ∉ list_ascii_of_string a -> substitute_separator separator a = a)
  /\ (provider account ≠ "gmail" -> provider account ≠ "eas" ->
      display_name category = "Work/Invoices" ->
      forall (r1 r2 r3 : R) (o : outcome unit),
        respond folder_separator (remote w) = (Returned ".", r1) ->
        respond folder_prefix r1 = (Returned "INBOX.", r2) ->
        respond (conn_create_folder "INBOX.Work.Invoices") r2 = (o, r3) ->
        calls_of (trace (remote_create_folder account_id category_id w).2)
        = calls_of (trace w)
          ++ [folder_separator; folder_prefix;
              conn_create_folder "INBOX.Work.Invoices"])
  /\ (provider account = "gmail" ->
      display_name category = "Work/Invoices" ->
      calls_of (trace (remote_create_folder account_id category_id w).2)
      = calls_of (trace w) ++ [conn_create_folder "Work/Invoices"]).
Proof.
  intros Ha Hc. split; [|split; [|split; [|split; [|split]]]].
  - intros Hflat o r3 Hcreate.
    pose proof (remote_create_folder_run w account_id category_id account category
                  "" "" (remote w) (remote w) r3 o Ha Hc) as Hrun.
    rewrite (not_in_gmail_eas_false _ Hflat) in Hrun.
    specialize (Hrun eq_refl Hcreate). cbv zeta in Hrun. rewrite Hrun.
    destruct o as [[]|e]; [|reflexivity].
    by rewrite bool_decide_eq_false_2 by (intros Hne; by apply Hne).
  - intros Hgmail Heas separator prefix r1 r2 r3 o Hsep Hpre folder_name Hcreate
      remote_events.
    pose proof (remote_create_folder_run w account_id category_id account category
                  separator prefix r1 r2 r3 o Ha Hc) as Hrun.
    rewrite (not_in_gmail_eas_true _ Hgmail Heas) in Hrun.
    exact (Hrun (conj Hsep Hpre) Hcreate).
  - intros separator a b. rewrite substitute_separator_app. reflexivity.
  - intros separator. apply substitute_separator_id.
  - intros Hgmail Heas Hname r1 r2 r3 o Hsep Hpre Hcreate.
    pose proof (remote_create_folder_run w account_id category_id account category
                  "." "INBOX." r1 r2 r3 o Ha Hc) as Hrun.
    rewrite (not_in_gmail_eas_true _ Hgmail Heas), Hname in Hrun.
    specialize (Hrun (conj Hsep Hpre) Hcreate). cbv zeta in Hrun. rewrite Hrun.
    destruct o as [[]|e]; [case_bool_decide|]; cbn [snd trace];
      rewrite !calls_of_app; cbn; by rewrite ?app_nil_r.
  - intros Hgmail Hname.
    destruct (respond (conn_create_folder "Work/Invoices") (remote w))
      as [o r3] eqn:Hcreate.
    pose proof (remote_create_folder_run w account_id category_id account category
                  "" "" (remote w) (remote w) r3 o Ha Hc) as Hrun.
    rewrite (not_in_gmail_eas_false _ (or_introl Hgmail)), Hname in Hrun.
    specialize (Hrun eq_refl Hcreate). cbv zeta in Hrun. rewrite Hrun.
    destruct o as [[]|e]; [case_bool_decide|]; cbn [snd trace];
      rewrite !calls_of_app; cbn; by rewrite ?app_nil_r.
Qed.

(** C6: when the session answers, [remote_create_folder] asks the remote to
    create the translated name, and afterwards writes that name onto the
    category exactly when it differs from the display name it read; either way
    the category then carries the translated name. *)
Theorem remote_create_folder_translates (w : world R) (account_id category_id : Z)
    (account : Account) (category : Category) (separator prefix : string)
    (r1 r2 r3 : R) :
  accounts (db w) !! account_id = Some account ->
  categories (db w) !! category_id = Some category ->
  (if not_in_gmail_eas (provider account)
   then respond folder_separator (remote w) = (Returned separator, r1)
        /\ respond folder_prefix r1 = (Returned prefix, r2)
   else r2 = remote w) ->
  let new_display_name :=
    translated_name (provider account) (display_name category) separator prefix in
  respond (conn_create_folder new_display_name) r2 = (Returned tt, r3) ->
  let remote_events :=
    [Acquire account_id] ++ translation_calls (provider account)
    ++ [Call (conn_create_folder new_display_name); Release account_id] in
  remote_create_folder account_id category_id w
  = (Returned tt,
     if bool_decide (new_display_name ≠ display_name category)
     then World (with_categories (db w)
                   (<[category_id := {| display_name := new_display_name |}]>
                      (categories (db w))))
            r3
            (trace w ++ remote_events
             ++ [DbSetDisplayName category_id new_display_name])
     else World (db w) r3 (trace w ++ remote_events))
  /\ display_name <$> categories (db (remote_create_folder account_id category_id w).2)
                       !! category_id
     = Some new_display_name.
Proof.
  intros Ha Hc Htr new_display_name Hcreate remote_events.
  assert (Hrun : remote_create_folder account_id category_id w
    = (Returned tt,
     if bool_decide (new_display_name ≠ display_name category)
     then World (with_categories (db w)
                   (<[category_id := {| display_name := new_display_name |}]>
                      (categories (db w))))
            r3
            (trace w ++ remote_events
             ++ [DbSetDisplayName category_id new_display_name])
     else World (db w) r3 (trace w ++ remote_events))).
  { unfold remote_create_folder, bind at 1.
    rewrite (read_provider_and_display_name_returns w _ _ _ _ Ha Hc).
    subst new_display_name remote_events.
    unfold translated_name, translation_calls in *.
    unfold writable_connection_pool_get, bind, crispin_client, ret.
    destruct (not_in_gmail_eas (provider account)).
    - destruct Htr as [Hsep Hpre]. cbn [db remote trace].
      rewrite Hsep. cbn [db remote trace]. rewrite Hpre. cbn [db remote trace].
      rewrite Hcreate. cbn [db remote trace].
      case_bool_decide.
      + unfold session_scope, bind, query_get, set_display_name.
        cbn [db remote trace]. rewrite Hc. cbn [db remote trace].
        rewrite <- !app_assoc. reflexivity.
      + rewrite <- !app_assoc. reflexivity.
    - subst r2. cbn [db remote trace].
      rewrite Hcreate. cbn [db remote trace].
      rewrite bool_decide_eq_false_2 by (intros Hne; by apply Hne).
      rewrite <- !app_assoc. reflexivity. }
  split; [exact Hrun|].
  rewrite Hrun. cbn [snd]. case_bool_decide as Hne.
  - cbn [db with_categories categories]. by rewrite lookup_insert_eq.
  - cbn [db]. rewrite Hc. cbn. by rewrite Hne.
Qed.

(** X20: whatever [IMAP4.error] the remote delete raises, folder not found or
    any other, [remote_delete_folder] treats as success, and the local
    category row is deleted after a successful or swallowed remote delete; an
    exception outside the [IMAP4.error] class propagates, the local delete is
    not reached and the category row stays. *)
Theorem remote_delete_folder_outcomes (w : world R) (account_id category_id : Z)
    (account : Account) (category : Category) (separator prefix : string)
    (r1 r2 r3 : R) (o : outcome unit) :
  accounts (db w) !! account_id = Some account ->
  categories (db w) !! category_id = Some category ->
  (if not_in_gmail_eas (provider account)
   then respond folder_separator (remote w) = (Returned separator, r1)
        /\ respond folder_prefix r1 = (Returned prefix, r2)
   else r2 = remote w) ->
  let folder_name :=
    translated_name (provider account) (display_name category) separator prefix in
  respond (conn_delete_folder folder_name) r2 = (o, r3) ->
  let remote_events :=
    [Acquire account_id] ++ translation_calls (provider account)
    ++ [Call (conn_delete_folder folder_name); Release account_id] in
  let deleted :=
    World (with_categories (db w) (delete category_id (categories (db w)))) r3
      (trace w ++ remote_events ++ [DbDelete category_id; DbCommit]) in
  remote_delete_folder account_id category_id w
  = match o with
    | Returned _ => (Returned tt, deleted)
    | Raised e =>
        if isinstance_IMAP4_error e
        then (Returned tt, deleted)
        else (Raised e, World (db w) r3 (trace w ++ remote_events))
    end.
Proof.
  intros Ha Hc Htr folder_name Hdelete remote_events deleted.
  unfold remote_delete_folder, bind at 1.
  rewrite (read_provider_and_display_name_returns w _ _ _ _ Ha Hc).
  subst deleted folder_name remote_events.
  unfold translated_name, translation_calls in *.
  unfold bind at 1.
  unfold writable_connection_pool_get, try_except_IMAP4_error, bind,
    crispin_client, ret.
  destruct (not_in_gmail_eas (provider account)).
  - destruct Htr as [Hsep Hpre]. cbn [db remote trace].
    rewrite Hsep. cbn [db remote trace]. rewrite Hpre. cbn [db remote trace].
    rewrite Hdelete.
    destruct o as [[]|e]; [|destruct (isinstance_IMAP4_error e)];
      cbn [db remote trace];
      unfold session_scope, query_get, db_delete, db_commit, emit;
      cbn [db remote trace]; rewrite ?Hc; cbn [db remote trace];
      rewrite <- ?app_assoc; reflexivity.
  - subst r2. cbn [db remote trace]. rewrite Hdelete.
    destruct o as [[]|e]; [|destruct (isinstance_IMAP4_error e)];
      cbn [db remote trace];
      unfold session_scope, query_get, db_delete, db_commit, emit;
      cbn [db remote trace]; rewrite ?Hc; cbn [db remote trace];
      rewrite <- ?app_assoc; reflexivity.
Qed.

(** ** Loops over the folders of a message *)

Lemma crispin_client_returned (c : call) (w w' : world R) (v : resp_type c) :
  crispin_client c w = (Returned v, w') ->
  db w' = db w /\ trace w' = trace w ++ [Call c].
Proof.
  unfold crispin_client. destruct (respond c (remote w)) as [o r'].
  intros [= _ <-]. split; reflexivity.
Qed.

Lemma crispin_client_answers (c : call) (w : world R) (events : list event) :
  answers R events -> Call c ∈ events ->
  exists v w', crispin_client c w = (Returned v, w').
Proof.
  intros Hanswers Hin. specialize (Hanswers c (remote w) Hin).
  unfold crispin_client. destruct (respond c (remote w)) as [[v|e] r'];
    [eauto | discriminate].
Qed.

Lemma for_each_returned {A} (body : A -> M R unit) (block : A -> list event) :
  (forall x w w', body x w = (Returned tt, w') ->
                  db w' = db w /\ trace w' = trace w ++ block x) ->
  forall l w w', for_each l body w = (Returned tt, w') ->
                 db w' = db w /\ trace w' = trace w ++ mjoin (block <$> l).
Proof.
  intros Hbody l. induction l as [|x l IH]; intros w w'.
  - cbn. intros [= <-]. by rewrite app_nil_r.
  - cbn [for_each]. unfold bind. destruct (body x w) as [[[]|e] w1] eqn:Hx; [|done].
    intros Hrest. destruct (Hbody _ _ _ Hx) as [Hdb Htrace].
    destruct (IH _ _ Hrest) as [Hdb' Htrace'].
    split; [congruence|]. rewrite Htrace', Htrace. cbn. by rewrite app_assoc.
Qed.

Lemma for_each_returns {A} (body : A -> M R unit) (l : list A) :
  (forall x, x ∈ l -> forall w, exists w', body x w = (Returned tt, w')) ->
  forall w, exists w', for_each l body w = (Returned tt, w').
Proof.
  induction l as [|x l IH]; intros Hbody w.
  - eexists. reflexivity.
  - cbn [for_each]. unfold bind.
    destruct (Hbody x (list_elem_of_here x l) w) as [w1 ->].
    apply IH. intros y Hy. apply Hbody. by right.
Qed.

Lemma answers_block {A} (block : A -> list event) (l : list A) (x : A) :
  answers R (mjoin (block <$> l)) -> x ∈ l -> answers R (block x).
Proof.
  intros Hanswers Hx c r Hc. apply Hanswers.
  apply list_elem_of_join. exists (block x). split; [done|].
  by apply list_elem_of_fmap_2.
Qed.

(** The UIDs of the mapping, all folders together, are the UIDs of the rows. *)
Lemma uids_of_defaultdict_append (mapping : gmap string (list Z)) (row : Z * string) :
  mjoin ((map_to_list (defaultdict_append mapping row)).*2)
  ≡ₚ mjoin ((map_to_list mapping).*2) ++ [row.1].
Proof.
  unfold defaultdict_append. destruct (mapping !! row.2) as [l|] eqn:Hl.
  - rewrite <- insert_delete_eq.
    rewrite map_to_list_insert by apply lookup_delete_eq.
    rewrite <- (map_to_list_delete mapping _ _ Hl).
    cbn. rewrite <- !app_assoc. apply Permutation_app_head, Permutation_app_comm.
  - rewrite map_to_list_insert by done.
    cbn. apply Permutation_cons_append.
Qed.

Lemma uids_of_foldl (rows : list (Z * string)) (mapping : gmap string (list Z)) :
  mjoin ((map_to_list (foldl defaultdict_append mapping rows)).*2)
  ≡ₚ mjoin ((map_to_list mapping).*2) ++ rows.*1.
Proof.
  revert mapping. induction rows as [|row rows IH]; intros mapping.
  - cbn. by rewrite app_nil_r.
  - cbn [foldl]. rewrite IH, uids_of_defaultdict_append.
    rewrite <- app_assoc. reflexivity.
Qed.

Lemma uids_by_folder_uids (message_id : Z) (d : Db) :
  mjoin ((map_to_list (uids_by_folder message_id d)).*2)
  ≡ₚ (query_msg_uid_folder_name message_id d).*1.
Proof.
  unfold uids_by_folder. rewrite uids_of_foldl.
  by rewrite map_to_list_empty.
Qed.

Lemma copied_uids_move_blocks (account_id : Z) (destination : string)
    (items : list (string * list Z)) :
  copied_uids destination
    ([Acquire account_id] ++ mjoin (move_block destination <$> items)
     ++ [Release account_id])
  = mjoin (items.*2).
Proof.
  unfold copied_uids, calls_of. cbn [app omap list_omap].
  induction items as [|[folder_name uids] items IH]; [reflexivity|].
  cbn. rewrite String.eqb_refl. cbn. f_equal. exact IH.
Qed.

Lemma flag_body_returned (flag_name : string) (is_add : bool)
    (item : string * list Z) (w w' : world R) :
  (let '(folder_name, uids) := item in
   bind (crispin_client (select_folder folder_name)) (fun _ =>
     if is_add
     then crispin_client (conn_add_flags uids [flag_name])
     else crispin_client (conn_remove_flags uids [flag_name]))) w
  = (Returned tt, w') ->
  db w' = db w /\ trace w' = trace w ++ flag_block flag_name is_add item.
Proof.
  destruct item as [folder_name uids]. unfold bind, flag_block.
  destruct (crispin_client (select_folder folder_name) w) as [[[]|e] w1] eqn:Hsel;
    [|done].
  apply (crispin_client_returned (select_folder folder_name) _ _ tt) in Hsel
    as [Hdb1 Ht1].
  destruct is_add; intros Hflag.
  - apply (crispin_client_returned (conn_add_flags uids [flag_name]) _ _ tt)
      in Hflag as [Hdb2 Ht2].
    split; [congruence|]. rewrite Ht2, Ht1, <- app_assoc. reflexivity.
  - apply (crispin_client_returned (conn_remove_flags uids [flag_name]) _ _ tt)
      in Hflag as [Hdb2 Ht2].
    split; [congruence|]. rewrite Ht2, Ht1, <- app_assoc. reflexivity.
Qed.

Lemma move_body_returned (destination : string) (item : string * list Z)
    (w w' : world R) :
  (let '(folder_name, uids) := item in
   bind (crispin_client (select_folder folder_name)) (fun _ =>
     bind (crispin_client (conn_copy uids destination)) (fun _ =>
       crispin_client (delete_uids uids)))) w
  = (Returned tt, w') ->
  db w' = db w /\ trace w' = trace w ++ move_block destination item.
Proof.
  destruct item as [folder_name uids]. unfold bind, move_block.
  destruct (crispin_client (select_folder folder_name) w) as [[[]|e] w1] eqn:Hsel;
    [|done].
  apply (crispin_client_returned (select_folder folder_name) _ _ tt) in Hsel
    as [Hdb1 Ht1].
  destruct (crispin_client (conn_copy uids destination) w1) as [[[]|e] w2] eqn:Hcopy;
    [|done].
  apply (crispin_client_returned (conn_copy uids destination) _ _ tt) in Hcopy
    as [Hdb2 Ht2].
  intros Hdel.
  apply (crispin_client_returned (delete_uids uids) _ _ tt) in Hdel as [Hdb3 Ht3].
  split; [congruence|]. rewrite Ht3, Ht2, Ht1, <- !app_assoc. reflexivity.
Qed.

Lemma flag_body_returns (flag_name : string) (is_add : bool)
    (item : string * list Z) (w : world R) :
  answers R (flag_block flag_name is_add item) ->
  exists w',
    (let '(folder_name, uids) := item in
     bind (crispin_client (select_folder folder_name)) (fun _ =>
       if is_add
       then crispin_client (conn_add_flags uids [flag_name])
       else crispin_client (conn_remove_flags uids [flag_name]))) w
    = (Returned tt, w').
Proof.
  intros Hanswers. destruct item as [folder_name uids]. unfold bind.
  destruct (crispin_client_answers (select_folder folder_name) w _ Hanswers)
    as ([] & w1 & ->); [left|].
  destruct is_add.
  - destruct (crispin_client_answers (conn_add_flags uids [flag_name]) w1 _ Hanswers)
      as ([] & w2 & ->); [right; left|]. eauto.
  - destruct (crispin_client_answers (conn_remove_flags uids [flag_name]) w1 _
                Hanswers) as ([] & w2 & ->); [right; left|]. eauto.
Qed.

Lemma move_body_returns (destination : string) (item : string * list Z)
    (w : world R) :
  answers R (move_block destination item) ->
  exists w',
    (let '(folder_name, uids) := item in
     bind (crispin_client (select_folder folder_name)) (fun _ =>
       bind (crispin_client (conn_copy uids destination)) (fun _ =>
         crispin_client (delete_uids uids)))) w
    = (Returned tt, w').
Proof.
  intros Hanswers. destruct item as [folder_name uids]. unfold bind.
  destruct (crispin_client_answers (select_folder folder_name) w _ Hanswers)
    as ([] & w1 & ->); [left|].
  destruct (crispin_client_answers (conn_copy uids destination) w1 _ Hanswers)
    as ([] & w2 & ->); [right; left|].
  destruct (crispin_client_answers (delete_uids uids) w2 _ Hanswers)
    as ([] & w3 & ->); [right; right; left|]. eauto.
Qed.

Lemma _set_flag_unfold (w : world R) (account_id message_id : Z)
    (flag_name : string) (is_add : bool) :
  uids_by_folder message_id (db w) ≠ ∅ ->
  _set_flag account_id message_id flag_name is_add w
  = writable_connection_pool_get account_id
      (for_each (map_to_list (uids_by_folder message_id (db w))) (fun item =>
         let '(folder_name, uids) := item in
         bind (crispin_client (select_folder folder_name)) (fun _ =>
           if is_add
           then crispin_client (conn_add_flags uids [flag_name])
           else crispin_client (conn_remove_flags uids [flag_name])))) w.
Proof.
  intros Hne. unfold _set_flag, bind at 1, session_scope, bind, db_session, ret.
  by rewrite bool_decide_eq_false_2.
Qed.

Lemma remote_move_unfold (w : world R) (account_id message_id : Z)
    (destination : string) :
  uids_by_folder message_id (db w) ≠ ∅ ->
  remote_move account_id message_id destination w
  = writable_connection_pool_get account_id
      (for_each (map_to_list (uids_by_folder message_id (db w))) (fun item =>
         let '(folder_name, uids) := item in
         bind (crispin_client (select_folder folder_name)) (fun _ =>
           bind (crispin_client (conn_copy uids destination)) (fun _ =>
             crispin_client (delete_uids uids))))) w.
Proof.
  intros Hne. unfold remote_move, bind at 1, session_scope, bind, db_session, ret.
  by rewrite bool_decide_eq_false_2.
Qed.

Lemma _set_flag_trace (w : world R) (account_id message_id : Z)
    (flag_name : string) (is_add : bool) :
  uids_by_folder message_id (db w) ≠ ∅ ->
  (_set_flag account_id message_id flag_name is_add w).1 = Returned tt ->
  trace (_set_flag account_id message_id flag_name is_add w).2
  = trace w ++ [Acquire account_id]
    ++ mjoin (flag_block flag_name is_add
                <$> map_to_list (uids_by_folder message_id (db w)))
    ++ [Release account_id].
Proof.
  intros Hne. rewrite (_set_flag_unfold w _ _ _ _ Hne).
  unfold writable_connection_pool_get.
  match goal with |- context [for_each ?l ?body ?w0] =>
    destruct (for_each l body w0) as [o w1] eqn:Hloop end.
  cbn [fst snd trace]. intros ->.
  apply (for_each_returned _ (flag_block flag_name is_add)) in Hloop
    as [_ Htrace]; [|intros x w0 w0'; apply flag_body_returned].
  rewrite Htrace. cbn [trace]. by rewrite <- !app_assoc.
Qed.

(** What a flag action that returns has added to the trace. *)
Lemma _set_flag_events (w : world R) (account_id message_id : Z)
    (flag_name : string) (is_add : bool) :
  let mapping := uids_by_folder message_id (db w) in
  mapping ≠ ∅ ->
  let run := _set_flag account_id message_id flag_name is_add w in
  (run.1 = Returned tt ->
   trace run.2
   = trace w ++ [Acquire account_id]
     ++ mjoin (flag_block flag_name is_add <$> map_to_list mapping)
     ++ [Release account_id])
  /\ (answers R (mjoin (flag_block flag_name is_add <$> map_to_list mapping)) ->
      run.1 = Returned tt)
  /\ (forall folder_name uids,
      (folder_name, uids) ∈ map_to_list mapping <-> mapping !! folder_name = Some uids)
  /\ set_remote_starred account_id message_id is_add w
     = _set_flag account_id message_id "\Flagged" is_add w
  /\ (query_msg_uid_folder_name message_id (db w) = [(5, "Inbox"); (9, "Work")] ->
      (set_remote_starred account_id message_id true w).1 = Returned tt ->
      exists blocks,
        blocks ≡ₚ [[Call (select_folder "Inbox");
                    Call (conn_add_flags [5] ["\Flagged"])];
                   [Call (select_folder "Work");
                    Call (conn_add_flags [9] ["\Flagged"])]]
        /\ trace (set_remote_starred account_id message_id true w).2
           = trace w ++ [Acquire account_id] ++ mjoin blocks ++ [Release account_id]).
Proof.
  intros mapping Hne run. split; [|split; [|split; [|split]]].
  - by apply _set_flag_trace.
  - intros Hnever. subst run. rewrite (_set_flag_unfold w _ _ _ _ Hne).
    unfold writable_connection_pool_get.
    match goal with |- context [for_each ?l ?body ?w0] =>
      destruct (for_each_returns body l
                  (fun x Hx w1 =>
                     flag_body_returns flag_name is_add x w1
                       (answers_block _ _ x Hnever Hx)) w0)
        as [w1 ->] end.
    reflexivity.
  - intros folder_name uids. apply elem_of_map_to_list.
  - reflexivity.
  - intros Hrows Hreturned. unfold set_remote_starred in *.
    rewrite (_set_flag_trace w _ _ _ _ Hne Hreturned).
    fold mapping. unfold mapping, uids_by_folder. rewrite Hrows.
    replace (map_to_list (foldl defaultdict_append ∅ [(5, "Inbox"); (9, "Work")]))
      with [("Work", [9]); ("Inbox", [5])] by (vm_compute; reflexivity).
    eexists. split; [|reflexivity]. cbn. apply perm_swap.
Qed.

(** What a move that returns has added to the trace. *)
Lemma remote_move_events (w : world R) (account_id message_id : Z)
    (destination : string) :
  let mapping := uids_by_folder message_id (db w) in
  mapping ≠ ∅ ->
  let run := remote_move account_id message_id destination w in
  let expected :=
    [Acquire account_id] ++ mjoin (move_block destination <$> map_to_list mapping)
    ++ [Release account_id] in
  (run.1 = Returned tt -> trace run.2 = trace w ++ expected)
  /\ (answers R expected -> run.1 = Returned tt)
  /\ (forall folder_name uids,
      (folder_name, uids) ∈ map_to_list mapping <-> mapping !! folder_name = Some uids)
  /\ copied_uids destination expected
     ≡ₚ (query_msg_uid_folder_name message_id (db w)).*1.
Proof.
  intros mapping Hne run expected. split; [|split; [|split]].
  - subst run expected. rewrite (remote_move_unfold w _ _ _ Hne).
    unfold writable_connection_pool_get.
    match goal with |- context [for_each ?l ?body ?w0] =>
      destruct (for_each l body w0) as [o w1] eqn:Hloop end.
    cbn [fst snd trace]. intros ->.
    apply (for_each_returned _ (move_block destination)) in Hloop
      as [_ Htrace]; [|intros x w0 w0'; apply move_body_returned].
    rewrite Htrace. cbn [trace]. by rewrite <- !app_assoc.
  - intros Hnever. subst run. rewrite (remote_move_unfold w _ _ _ Hne).
    unfold writable_connection_pool_get.
    assert (Hblocks : answers R
              (mjoin (move_block destination <$> map_to_list mapping))).
    { intros c r Hc. apply Hnever. subst expected.
      rewrite !elem_of_app. right. by left. }
    match goal with |- context [for_each ?l ?body ?w0] =>
      destruct (for_each_returns body l
                  (fun x Hx w1 =>
                     move_body_returns destination x w1
                       (answers_block _ _ x Hblocks Hx)) w0)
        as [w1 ->] end.
    reflexivity.
  - intros folder_name uids. apply elem_of_map_to_list.
  - subst expected. rewrite copied_uids_move_blocks. apply uids_by_folder_uids.
Qed.

(** ** The loops as runs of calls on the session *)

Lemma session_run_app (calls calls' : list call) (r : R) :
  session_run (calls ++ calls') r
  = match session_run calls r with
    | (Returned _, r1, events) =>
        match session_run calls' r1 with
        | (o, r2, events') => (o, r2, events ++ events')
        end
    | (Raised e, r1, events) => (Raised e, r1, events)
    end.
Proof.
  revert r. induction calls as [|c calls IH]; intros r.
  - cbn. by destruct (session_run calls' r) as [[o r2] events'].
  - cbn [app session_run]. destruct (respond c r) as [[v|e] r']; [|reflexivity].
    rewrite IH. destruct (session_run calls r') as [[[[]|e1] r1] events1];
      [|reflexivity].
    by destruct (session_run calls' r1) as [[o r2] events2].
Qed.

Lemma for_each_performs {A} (body : A -> M R unit) (block : A -> list event)
    (l : list A) :
  (forall x, performs (body x) (calls_of (block x))) ->
  performs (for_each l body) (calls_of (mjoin (block <$> l))).
Proof.
  intros Hbody. induction l as [|x l IH]; intros w.
  - cbn. destruct w as [d r t]. cbn. by rewrite app_nil_r.
  - cbn [for_each fmap list_fmap mjoin list_join]. unfold bind.
    rewrite (Hbody x w), calls_of_app, session_run_app.
    destruct (session_run (calls_of (block x)) (remote w))
      as [[[[]|e] r1] events1]; [|reflexivity].
    rewrite (IH _). cbn [db remote trace].
    destruct (session_run _ r1) as [[o r2] events2].
    by rewrite <- (List.app_assoc (trace w)).
Qed.

Lemma flag_body_performs (flag_name : string) (is_add : bool)
    (item : string * list Z) :
  performs
    (let '(folder_name, uids) := item in
     bind (crispin_client (select_folder folder_name)) (fun _ =>
       if is_add
       then crispin_client (conn_add_flags uids [flag_name])
       else crispin_client (conn_remove_flags uids [flag_name])))
    (calls_of (flag_block flag_name is_add item)).
Proof.
  destruct item as [folder_name uids]. intros w.
  unfold bind, crispin_client, flag_block.
  cbn [calls_of omap list_omap fst snd session_run].
  destruct (respond (select_folder folder_name) (remote w)) as [[[]|e1] r1];
    [|reflexivity].
  destruct is_add; cbn [session_run db remote trace].
  - destruct (respond (conn_add_flags uids [flag_name]) r1) as [[[]|e2] r2];
      by rewrite <- (List.app_assoc (trace w)).
  - destruct (respond (conn_remove_flags uids [flag_name]) r1) as [[[]|e2] r2];
      by rewrite <- (List.app_assoc (trace w)).
Qed.

Lemma move_body_performs (destination : string) (item : string * list Z) :
  performs
    (let '(folder_name, uids) := item in
     bind (crispin_client (select_folder folder_name)) (fun _ =>
       bind (crispin_client (conn_copy uids destination)) (fun _ =>
         crispin_client (delete_uids uids))))
    (calls_of (move_block destination item)).
Proof.
  destruct item as [folder_name uids]. intros w.
  unfold bind, crispin_client, move_block.
  cbn [calls_of omap list_omap fst snd session_run].
  destruct (respond (select_folder folder_name) (remote w)) as [[[]|e1] r1];
    [|reflexivity].
  cbn [db remote trace].
  destruct (respond (conn_copy uids destination) r1) as [[[]|e2] r2];
    [|by rewrite <- (List.app_assoc (trace w))].
  cbn [db remote trace].
  destruct (respond (delete_uids uids) r2) as [[[]|e3] r3];
    by rewrite <- !(List.app_assoc (trace w)).
Qed.

(** A flag action on a message with remote UIDs is the run of select, flag for
    each folder of the mapping, inside the session. *)
Lemma _set_flag_performs (w : world R) (account_id message_id : Z)
    (flag_name : string) (is_add : bool) :
  uids_by_folder message_id (db w) ≠ ∅ ->
  performs_in_session account_id
    (_set_flag account_id message_id flag_name is_add)
    (calls_of (mjoin (flag_block flag_name is_add
                        <$> map_to_list (uids_by_folder message_id (db w)))))
    w.
Proof.
  intros Hne. unfold performs_in_session.
  rewrite (_set_flag_unfold w _ _ _ _ Hne). unfold writable_connection_pool_get.
  rewrite (for_each_performs _ (flag_block flag_name is_add) _
             (flag_body_performs flag_name is_add) _).
  cbn [db remote trace].
  destruct (session_run _ (remote w)) as [[o r'] events]. cbn [db remote trace].
  by rewrite <- !app_assoc.
Qed.

(** A move of a message with remote UIDs is the run of select, copy, delete
    for each folder of the mapping, inside the session. *)
Lemma remote_move_performs (w : world R) (account_id message_id : Z)
    (destination : string) :
  uids_by_folder message_id (db w) ≠ ∅ ->
  performs_in_session account_id
    (remote_move account_id message_id destination)
    (calls_of (mjoin (move_block destination
                        <$> map_to_list (uids_by_folder message_id (db w)))))
    w.
Proof.
  intros Hne. unfold performs_in_session.
  rewrite (remote_move_unfold w _ _ _ Hne). unfold writable_connection_pool_get.
  rewrite (for_each_performs _ (move_block destination) _
             (move_body_performs destination) _).
  cbn [db remote trace].
  destruct (session_run _ (remote w)) as [[o r'] events]. cbn [db remote trace].
  by rewrite <- !app_assoc.
Qed.

(** In a run of calls, a call that is not the last one made was answered: the
    calls before it returned one after the other, and it returned in the state
    they left the session in. *)
Lemma session_run_answered (calls : list call) (r r' : R) (o : outcome unit)
    (events pre post : list event) (c : call) (next : event) :
  session_run calls r = (o, r', events) ->
  events = pre ++ Call c :: next :: post ->
  exists (r_mid r_next : R) (v : resp_type c),
    session_run (calls_of pre) r = (Returned tt, r_mid, pre)
    /\ respond c r_mid = (Returned v, r_next).
Proof.
  revert r events pre. induction calls as [|c0 calls IH]; intros r events pre.
  - cbn. intros [= _ _ <-] Hev. by destruct pre.
  - cbn [session_run]. destruct (respond c0 r) as [[v0|e0] r0] eqn:Hc0.
    + destruct (session_run calls r0) as [[o1 r1] events1] eqn:Hrest.
      intros [= -> -> <-] Hev. destruct pre as [|x pre]; cbn [app] in Hev.
      * injection Hev as Hc _. subst c0. exists r, r0, v0. by split.
      * injection Hev as <- Hev.
        destruct (IH r0 events1 pre Hrest Hev) as (r_mid & r_next & v & Hpre & Hc).
        exists r_mid, r_next, v. split; [|exact Hc].
        cbn [calls_of omap list_omap session_run].
        change (omap _ pre) with (calls_of pre). by rewrite Hc0, Hpre.
    + intros [= _ _ <-] Hev. destruct pre as [|x [|y pre]]; discriminate.
Qed.

(** C7: for a message with remote UIDs, a flag action is the run, inside the
    session, of select-folder then add (or remove) the flag on the UIDs the
    mapping has for that folder, for each folder of the mapping: the session
    answers call after call, the action stops at the first call that raises
    and raises what it raised, and otherwise returns with every folder selected
    and flagged and nothing else done.  [set_remote_starred] does so with the
    flag [\Flagged]: for a message at UID 5 in Inbox and UID 9 in Work it is
    the run of a flag-add of [5] on Inbox and of [9] on Work, the two folders
    in some order. *)
Theorem set_flag_per_folder (w : world R) (account_id message_id : Z)
    (flag_name : string) (is_add : bool) :
  let mapping := uids_by_folder message_id (db w) in
  mapping ≠ ∅ ->
  let blocks := mjoin (flag_block flag_name is_add <$> map_to_list mapping) in
  let run := _set_flag account_id message_id flag_name is_add w in
  run = match session_run (calls_of blocks) (remote w) with
        | (o, r', events) =>
            (o, World (db w) r'
                  (trace w ++ [Acquire account_id] ++ events
                   ++ [Release account_id]))
        end
  /\ (run.1 = Returned tt ->
      trace run.2 = trace w ++ [Acquire account_id] ++ blocks ++ [Release account_id])
  /\ (answers R blocks -> run.1 = Returned tt)
  /\ (forall folder_name uids,
      (folder_name, uids) ∈ map_to_list mapping <-> mapping !! folder_name = Some uids)
  /\ set_remote_starred account_id message_id is_add w
     = _set_flag account_id message_id "\Flagged" is_add w
  /\ (query_msg_uid_folder_name message_id (db w) = [(5, "Inbox"); (9, "Work")] ->
      exists items,
        items ≡ₚ [("Inbox", [5]); ("Work", [9])]
        /\ set_remote_starred account_id message_id true w
           = match session_run
                     (items ≫= fun item : string * list Z =>
                                 [select_folder item.1;
                                  conn_add_flags item.2 ["\Flagged"]])
                     (remote w) with
             | (o, r', events) =>
                 (o, World (db w) r'
                       (trace w ++ [Acquire account_id] ++ events
                        ++ [Release account_id]))
             end).
Proof.
  intros mapping Hne blocks run.
  destruct (_set_flag_events w account_id message_id flag_name is_add Hne)
    as (Htrace & Hreturns & Hitems & Hstarred & _).
  split; [|split; [|split; [|split; [|split]]]].
  - exact (_set_flag_performs w account_id message_id flag_name is_add Hne).
  - exact Htrace.
  - exact Hreturns.
  - exact Hitems.
  - exact Hstarred.
  - intros Hrows. unfold set_remote_starred.
    rewrite (_set_flag_performs w account_id message_id "\Flagged" true Hne).
    unfold uids_by_folder. rewrite Hrows.
    replace (map_to_list (foldl defaultdict_append ∅ [(5, "Inbox"); (9, "Work")]))
      with [("Work", [9]); ("Inbox", [5])] by (vm_compute; reflexivity).
    exists [("Work", [9]); ("Inbox", [5])]. split; [apply perm_swap|reflexivity].
Qed.

(** C5: for a message with remote UIDs, a move is the run, inside the session,
    of select-folder, copy of the UIDs the mapping has for that folder to the
    destination, then deletion of those UIDs, for each source folder of the
    mapping: the session answers call after call, the move stops at the first
    call that raises and raises what it raised (a refused copy is not followed
    by the delete), and otherwise returns.  In a move that returns, the UIDs
    copied to the destination are, with their multiplicity, the UIDs of the
    rows of the message: one copy per source occurrence. *)
Theorem remote_move_per_folder (w : world R) (account_id message_id : Z)
    (destination : string) :
  let mapping := uids_by_folder message_id (db w) in
  mapping ≠ ∅ ->
  let blocks := mjoin (move_block destination <$> map_to_list mapping) in
  let run := remote_move account_id message_id destination w in
  run = match session_run (calls_of blocks) (remote w) with
        | (o, r', events) =>
            (o, World (db w) r'
                  (trace w ++ [Acquire account_id] ++ events
                   ++ [Release account_id]))
        end
  /\ (run.1 = Returned tt ->
      exists events,
        trace run.2 = trace w ++ events
        /\ events = [Acquire account_id] ++ blocks ++ [Release account_id]
        /\ copied_uids destination events
           ≡ₚ (query_msg_uid_folder_name message_id (db w)).*1)
  /\ (answers R blocks -> run.1 = Returned tt)
  /\ (forall folder_name uids,
      (folder_name, uids) ∈ map_to_list mapping <-> mapping !! folder_name = Some uids).
Proof.
  intros mapping Hne blocks run.
  destruct (remote_move_events w account_id message_id destination Hne)
    as (Htrace & Hreturns & Hitems & Hcopied).
  pose proof (remote_move_performs w account_id message_id destination Hne) as Hrun.
  unfold performs_in_session in Hrun. fold mapping blocks run in Hrun.
  split; [exact Hrun|]. split; [|split; [|exact Hitems]].
  - intros Hreturned. eexists. split; [exact (Htrace Hreturned)|].
    split; [reflexivity|exact Hcopied].
  - intros Hanswers. apply Hreturns. intros c r Hc. apply Hanswers.
    rewrite !elem_of_app in Hc. destruct Hc as [Hc|[Hc|Hc]]; [|done|].
    + apply elem_of_cons in Hc as [Hc|Hc]; [discriminate|by apply elem_of_nil in Hc].
    + apply elem_of_cons in Hc as [Hc|Hc]; [discriminate|by apply elem_of_nil in Hc].
Qed.

End Properties.

(** ** The draft supersession protocol *)

(** What [remote_update_draft] does on a session that answers and has a drafts
    folder: it searches for the new Message-Id header, appends the draft only
    when the search found nothing, then asks for the deletion of one draft with
    the old header. *)
Lemma remote_update_draft_run {R : Type} `{Crispin R} (w : world R)
    (account_id message_id : Z) (old_message_id_header : string)
    (m : Message) (mimemsg : email) (names names' : gmap string (list string))
    (folder_name : string) (rest : list string) (r1 r2 r3 r4 r5 r6 : R)
    (existing_new_draft : option Z) (old_version_deleted : bool) :
  messages (db w) !! message_id = Some m ->
  _create_email (accounts (db w) !! account_id) (Some m) = Returned mimemsg ->
  respond folder_names (remote w) = (Returned names, r1) ->
  is_Some (names !! "drafts") ->
  respond folder_names r1 = (Returned names', r2) ->
  names' !! "drafts" = Some (folder_name :: rest) ->
  respond (select_folder folder_name) r2 = (Returned tt, r3) ->
  respond (find_by_header "Message-Id" (message_id_header m)) r3
  = (Returned existing_new_draft, r4) ->
  match existing_new_draft with
  | Some _ => r5 = r4
  | None => respond (save_draft mimemsg) r4 = (Returned tt, r5)
  end ->
  respond (delete_draft old_message_id_header) r5 = (Returned old_version_deleted, r6) ->
  remote_update_draft account_id message_id old_message_id_header w
  = (Returned tt,
     World (db w) r6
       (trace w
        ++ update_draft_events account_id folder_name (message_id_header m)
             old_message_id_header mimemsg existing_new_draft old_version_deleted)).
Proof.
  intros Hm He Hnames Hdrafts Hnames' Hdrafts' Hsel Hfind Hsave Hdel.
  unfold update_draft_events, remote_update_draft, bind at 1.
  unfold session_scope, bind, query_get, getattr, ret, lift.
  rewrite Hm, He.
  unfold writable_connection_pool_get, crispin_client, getitem, first_item, ret,
    log, emit.
  cbn [db remote trace]. rewrite Hnames. cbn [db remote trace].
  unfold contains. rewrite bool_decide_eq_true_2 by done.
  cbn [negb db remote trace].
  rewrite Hnames', Hdrafts'. cbn [db remote trace].
  rewrite Hsel. cbn [db remote trace]. rewrite Hfind.
  destruct existing_new_draft as [uid|]; cbn [db remote trace].
  - subst r5. rewrite bool_decide_eq_true_2 by done. cbn [negb db remote trace].
    rewrite Hdel.
    destruct old_version_deleted; cbn [db remote trace];
      rewrite <- !app_assoc; reflexivity.
  - rewrite bool_decide_eq_false_2 by apply is_Some_None.
    cbn [negb db remote trace].
    rewrite Hsave. cbn [db remote trace]. rewrite Hdel.
    destruct old_version_deleted; cbn [db remote trace];
      rewrite <- !app_assoc; reflexivity.
Qed.

(** *** On the reference session *)

Section ReferenceSession.

Variable message_id : email -> string.

Lemma find_draft_None_count (value : string) (l : list (Z * email)) :
  find_draft message_id value l = None <-> count_drafts message_id value l = 0%nat.
Proof.
  unfold count_drafts. induction l as [|d l IH]; [done|].
  cbn [find_draft List.filter]. destruct (String.eqb (message_id d.2) value).
  - cbn [length]. split; discriminate.
  - exact IH.
Qed.

Lemma count_drafts_app (value : string) (l l' : list (Z * email)) :
  count_drafts message_id value (l ++ l')
  = (count_drafts message_id value l + count_drafts message_id value l')%nat.
Proof. unfold count_drafts. by rewrite List.filter_app, length_app. Qed.

Lemma count_drafts_delete_other (value value' : string) (l : list (Z * email)) :
  value ≠ value' ->
  count_drafts message_id value (delete_first_draft message_id value' l)
  = count_drafts message_id value l.
Proof.
  intros Hne. unfold count_drafts. induction l as [|d l IH]; [done|].
  cbn [delete_first_draft List.filter].
  destruct (String.eqb_spec (message_id d.2) value') as [Heq'|Hne'].
  - rewrite (proj2 (String.eqb_neq _ _)) by congruence. reflexivity.
  - cbn [List.filter]. destruct (String.eqb (message_id d.2) value);
      cbn [length]; by rewrite IH.
Qed.

Lemma count_drafts_delete_same (value : string) (l : list (Z * email)) :
  count_drafts message_id value (delete_first_draft message_id value l)
  = pred (count_drafts message_id value l).
Proof.
  unfold count_drafts. induction l as [|d l IH]; [done|].
  cbn [delete_first_draft List.filter].
  destruct (String.eqb (message_id d.2) value) eqn:Heq; [reflexivity|].
  cbn [List.filter]. rewrite Heq. exact IH.
Qed.

Lemma count_drafts_delete_le (value value' : string) (l : list (Z * email)) :
  (count_drafts message_id value l
   <= S (count_drafts message_id value (delete_first_draft message_id value' l)))%nat.
Proof.
  destruct (decide (value = value')) as [<-|Hne].
  - rewrite count_drafts_delete_same. lia.
  - rewrite count_drafts_delete_other by done. lia.
Qed.

End ReferenceSession.

Lemma with_drafts_same (mb : mailbox) :
  with_drafts mb (mb_drafts mb) (mb_uidnext mb) = mb.
Proof. by destruct mb. Qed.

Lemma delete_first_draft_not_found (message_id : email -> string) (value : string)
    (l : list (Z * email)) :
  find_draft message_id value l = None -> delete_first_draft message_id value l = l.
Proof.
  induction l as [|d l IH]; [done|]. cbn [find_draft delete_first_draft].
  destruct (String.eqb (message_id d.2) value); [done|].
  intros Hnone. by rewrite IH.
Qed.

(** The reference session after [remote_update_draft]: the draft appended
    unless one with the new header is there, then the first draft with the
    old header removed. *)
Lemma remote_update_draft_on_mailbox (d : Db) (mb : mailbox) (t : list event)
    (account_id message_id : Z) (old_message_id_header : string)
    (m : Message) (mimemsg : email) (folder_name : string) (rest : list string) :
  messages d !! message_id = Some m ->
  _create_email (accounts d !! account_id) (Some m) = Returned mimemsg ->
  mb_folder_names mb !! "drafts" = Some (folder_name :: rest) ->
  let existing_new_draft :=
    find_draft (mb_message_id mb) (message_id_header m) (mb_drafts mb) in
  let appended :=
    match existing_new_draft with
    | Some _ => mb
    | None => with_drafts mb (mb_drafts mb ++ [(mb_uidnext mb, mimemsg)])
                (mb_uidnext mb + 1)
    end in
  remote_update_draft account_id message_id old_message_id_header (World d mb t)
  = (Returned tt,
     World d
       (with_drafts appended
          (delete_first_draft (mb_message_id mb) old_message_id_header
             (mb_drafts appended))
          (mb_uidnext appended))
       (t ++ update_draft_events account_id folder_name (message_id_header m)
               old_message_id_header mimemsg existing_new_draft
               (bool_decide (is_Some (find_draft (mb_message_id mb)
                                        old_message_id_header
                                        (mb_drafts appended)))))).
Proof.
  intros Hm He Hdrafts existing_new_draft appended.
  assert (Hid : mb_message_id appended = mb_message_id mb).
  { subst appended. by destruct existing_new_draft. }
  apply (remote_update_draft_run (World d mb t) account_id message_id
           old_message_id_header m mimemsg (mb_folder_names mb) (mb_folder_names mb)
           folder_name rest mb mb mb mb appended); cbn [db remote trace];
    try done.
  - subst appended. by destruct existing_new_draft.
  - unfold respond, mailbox_session. cbn [mailbox_answer].
    rewrite Hid.
    destruct (find_draft (mb_message_id mb) old_message_id_header
                (mb_drafts appended)) as [uid|] eqn:Hold.
    + by rewrite bool_decide_eq_true_2.
    + rewrite bool_decide_eq_false_2 by apply is_Some_None.
      rewrite delete_first_draft_not_found by done.
      by rewrite with_drafts_same.
Qed.

Lemma saved_drafts_app (t t' : list event) :
  saved_drafts (t ++ t') = (saved_drafts t + saved_drafts t')%nat.
Proof.
  unfold saved_drafts, calls_of. by rewrite omap_app, List.filter_app, length_app.
Qed.

Lemma saved_drafts_update_draft_events (account_id : Z) (folder_name new old : string)
    (mimemsg : email) (existing_new_draft : option Z) (old_version_deleted : bool) :
  saved_drafts (update_draft_events account_id folder_name new old mimemsg
                  existing_new_draft old_version_deleted)
  = match existing_new_draft with Some _ => 0%nat | None => 1%nat end.
Proof. by destruct existing_new_draft, old_version_deleted. Qed.

(** One run on the reference session, in numbers: [c] drafts with the new
    header become [max c 1], less the one deleted when the old header is the
    new one; a draft is appended only when [c] is zero; at most one draft with
    the old header goes. *)
Lemma remote_update_draft_counts (d : Db) (mb : mailbox) (t : list event)
    (account_id message_id : Z) (old_message_id_header : string)
    (m : Message) (mimemsg : email) (folder_name : string) (rest : list string) :
  messages d !! message_id = Some m ->
  _create_email (accounts d !! account_id) (Some m) = Returned mimemsg ->
  mb_folder_names mb !! "drafts" = Some (folder_name :: rest) ->
  mb_message_id mb mimemsg = message_id_header m ->
  exists (mb' : mailbox) (t' : list event),
    remote_update_draft account_id message_id old_message_id_header (World d mb t)
    = (Returned tt, World d mb' (t ++ t'))
    /\ mb_folder_names mb' = mb_folder_names mb
    /\ mb_message_id mb' = mb_message_id mb
    /\ drafts_with (message_id_header m) mb'
       = (if decide (old_message_id_header = message_id_header m)
          then pred (max (drafts_with (message_id_header m) mb) 1)
          else max (drafts_with (message_id_header m) mb) 1)
    /\ saved_drafts t'
       = match drafts_with (message_id_header m) mb with
         | O => 1%nat
         | S _ => 0%nat
         end
    /\ (drafts_with old_message_id_header mb
        <= S (drafts_with old_message_id_header mb'))%nat.
Proof.
  intros Hm He Hdrafts Hid.
  pose proof (remote_update_draft_on_mailbox d mb t account_id message_id
                old_message_id_header m mimemsg folder_name rest Hm He Hdrafts)
    as Hrun.
  cbv zeta in Hrun.
  set (new := message_id_header m) in *.
  set (existing := find_draft (mb_message_id mb) new (mb_drafts mb)) in *.
  set (appended := match existing with
                   | Some _ => mb
                   | None => with_drafts mb (mb_drafts mb ++ [(mb_uidnext mb, mimemsg)])
                               (mb_uidnext mb + 1)
                   end) in *.
  assert (Happ_id : mb_message_id appended = mb_message_id mb)
    by (subst appended; by destruct existing).
  assert (Happ_count : forall value,
            (count_drafts (mb_message_id mb) value (mb_drafts mb)
             <= count_drafts (mb_message_id mb) value (mb_drafts appended))%nat).
  { intros value. subst appended. destruct existing; [done|].
    cbn [with_drafts mb_drafts]. rewrite count_drafts_app. lia. }
  assert (Happ_new : count_drafts (mb_message_id mb) new (mb_drafts appended)
                     = max (drafts_with new mb) 1).
  { unfold drafts_with. subst appended.
    destruct existing as [uid|] eqn:Hex; subst existing.
    - destruct (count_drafts (mb_message_id mb) new (mb_drafts mb)) eqn:Hc; [|lia].
      apply find_draft_None_count in Hc. congruence.
    - apply find_draft_None_count in Hex. rewrite Hex.
      cbn [with_drafts mb_drafts]. rewrite count_drafts_app, Hex.
      unfold count_drafts. cbn [List.filter snd]. rewrite Hid.
      by rewrite String.eqb_refl. }
  eexists _, _. split; [exact Hrun|].
  split; [|split; [|split; [|split]]].
  - cbn [with_drafts mb_folder_names]. subst appended. by destruct existing.
  - cbn [with_drafts mb_message_id]. exact Happ_id.
  - unfold drafts_with at 1. cbn [with_drafts mb_message_id mb_drafts].
    rewrite Happ_id. case_decide as Hold.
    + rewrite Hold, count_drafts_delete_same, Happ_new. reflexivity.
    + rewrite count_drafts_delete_other by done. exact Happ_new.
  - rewrite saved_drafts_update_draft_events. unfold drafts_with.
    destruct existing as [uid|] eqn:Hex; subst existing.
    + destruct (count_drafts (mb_message_id mb) new (mb_drafts mb)) eqn:Hc; [|done].
      apply find_draft_None_count in Hc. congruence.
    + apply find_draft_None_count in Hex. by rewrite Hex.
  - unfold drafts_with. cbn [with_drafts mb_message_id mb_drafts]. rewrite Happ_id.
    etrans; [apply Happ_count|]. apply count_drafts_delete_le.
Qed.

(** C2: on any session that answers and has a drafts folder,
    [remote_update_draft] searches the drafts folder for the Message-Id header
    of the new message, appends the draft only when that search found nothing,
    and then asks once for the deletion of a draft with the old header.  On the
    reference session one invocation removes at most one draft with the old
    header, and two invocations with the same arguments leave at most one more
    draft with the new header than there was; when the old header differs
    from the new one, the two invocations append at most once. *)
Theorem remote_update_draft_supersedes :
  (forall (R : Type) (session : Crispin R) (w : world R)
     (account_id message_id : Z) (old_message_id_header : string)
     (m : Message) (mimemsg : email) (names names' : gmap string (list string))
     (folder_name : string) (rest : list string) (r1 r2 r3 r4 r5 r6 : R)
     (existing_new_draft : option Z) (old_version_deleted : bool),
     messages (db w) !! message_id = Some m ->
     _create_email (accounts (db w) !! account_id) (Some m) = Returned mimemsg ->
     respond folder_names (remote w) = (Returned names, r1) ->
     is_Some (names !! "drafts") ->
     respond folder_names r1 = (Returned names', r2) ->
     names' !! "drafts" = Some (folder_name :: rest) ->
     respond (select_folder folder_name) r2 = (Returned tt, r3) ->
     respond (find_by_header "Message-Id" (message_id_header m)) r3
     = (Returned existing_new_draft, r4) ->
     match existing_new_draft with
     | Some _ => r5 = r4
     | None => respond (save_draft mimemsg) r4 = (Returned tt, r5)
     end ->
     respond (delete_draft old_message_id_header) r5
     = (Returned old_version_deleted, r6) ->
     remote_update_draft account_id message_id old_message_id_header w
     = (Returned tt,
        World (db w) r6
          (trace w
           ++ update_draft_events account_id folder_name (message_id_header m)
                old_message_id_header mimemsg existing_new_draft
                old_version_deleted)))
  /\ (forall (d : Db) (mb : mailbox) (t : list event) (account_id message_id : Z)
       (old_message_id_header : string) (m : Message) (mimemsg : email)
       (folder_name : string) (rest : list string),
       messages d !! message_id = Some m ->
       _create_email (accounts d !! account_id) (Some m) = Returned mimemsg ->
       mb_folder_names mb !! "drafts" = Some (folder_name :: rest) ->
       mb_message_id mb mimemsg = message_id_header m ->
       let once :=
         remote_update_draft account_id message_id old_message_id_header
           (World d mb t) in
       let twice :=
         remote_update_draft account_id message_id old_message_id_header once.2 in
       once.1 = Returned tt
       /\ twice.1 = Returned tt
       /\ (drafts_with old_message_id_header mb
           <= S (drafts_with old_message_id_header (remote once.2)))%nat
       /\ (drafts_with (message_id_header m) (remote twice.2)
           <= S (drafts_with (message_id_header m) mb))%nat
       /\ (old_message_id_header ≠ message_id_header m ->
           (saved_drafts (trace twice.2) <= S (saved_drafts t))%nat)).
Proof.
  split.
  - intros R session. apply @remote_update_draft_run.
  - intros d mb t account_id message_id old_message_id_header m mimemsg
      folder_name rest Hm He Hdrafts Hid once twice.
    destruct (remote_update_draft_counts d mb t account_id message_id
                old_message_id_header m mimemsg folder_name rest
                Hm He Hdrafts Hid)
      as (mb1 & t1 & Hrun1 & Hnames1 & Hid1 & Hnew1 & Hsaved1 & Hold1).
    assert (Hdrafts1 : mb_folder_names mb1 !! "drafts" = Some (folder_name :: rest))
      by (by rewrite Hnames1).
    assert (Hid1' : mb_message_id mb1 mimemsg = message_id_header m)
      by (by rewrite Hid1).
    destruct (remote_update_draft_counts d mb1 (t ++ t1) account_id message_id
                old_message_id_header m mimemsg folder_name rest
                Hm He Hdrafts1 Hid1')
      as (mb2 & t2 & Hrun2 & Hnames2 & Hid2 & Hnew2 & Hsaved2 & Hold2).
    subst twice once. rewrite Hrun1. cbn [fst snd]. rewrite Hrun2.
    cbn [fst snd remote trace].
    split; [done|]. split; [done|]. split; [exact Hold1|]. split.
    + rewrite Hnew2, Hnew1. case_decide; lia.
    + intros Hne. rewrite !saved_drafts_app, Hsaved2, Hsaved1, Hnew1.
      rewrite decide_False by done.
      destruct (drafts_with (message_id_header m) mb); cbn; lia.
Qed.

(** ** The worked example *)

Lemma mailbox_answers (events : list event) :
  forallb always_answered events = true -> answers mailbox events.
Proof.
  intros Hall c r Hc. apply list_elem_of_In in Hc.
  rewrite forallb_forall in Hall. specialize (Hall _ Hc).
  unfold respond, mailbox_session.
  destruct c; cbn in Hall |- *; try reflexivity; try discriminate.
  by destruct (find_draft _ _ _).
Qed.

Lemma example_has_uids : uids_by_folder 3 (db example_world) ≠ ∅.
Proof.
  intros Hempty. apply uids_by_folder_empty_iff in Hempty.
  vm_compute in Hempty. discriminate.
Qed.

(** Message 4 of the example has no row: the three actions only log. *)
Lemma no_remote_uids_is_noop_witness :
  uids_by_folder 4 (db example_world) = ∅
  /\ set_remote_starred 1 4 true example_world
     = (Returned tt,
        World example_db example_mailbox [Log warning "No UIDs found for message"])
  /\ set_remote_unread 1 4 true example_world
     = (Returned tt,
        World example_db example_mailbox [Log warning "No UIDs found for message"])
  /\ remote_move 1 4 "Archive" example_world
     = (Returned tt,
        World example_db example_mailbox [Log warning "No UIDs found for message"]).
Proof.
  destruct (no_remote_uids_is_noop example_world 1 4 true "Archive")
    as [Hresolver Hnoop].
  assert (Hempty : uids_by_folder 4 (db example_world) = ∅).
  { apply Hresolver. intros u Hu. apply list_elem_of_In in Hu.
    cbn in Hu. destruct Hu as [<-|[<-|[]]]; cbn; lia. }
  destruct (Hnoop Hempty) as (Hstarred & Hunread & Hmove & _).
  split; [exact Hempty|]. split; [exact Hstarred|]. split; [exact Hunread|].
  exact Hmove.
Defined.

(** The draft of the example is updated, twice, on the empty drafts folder:
    one draft is appended, by the first invocation. *)
Lemma remote_update_draft_supersedes_witness :
  remote_update_draft 1 3 "<c3p0-1@mailer.nylas.com>" example_world
  = (Returned tt,
     World example_db
       (with_drafts example_mailbox [(1, example_email)] 2)
       (update_draft_events 1 "INBOX.Drafts" "<c3p0@mailer.nylas.com>"
          "<c3p0-1@mailer.nylas.com>" example_email None false))
  /\ (saved_drafts
        (trace (remote_update_draft 1 3 "<c3p0-1@mailer.nylas.com>"
                  (remote_update_draft 1 3 "<c3p0-1@mailer.nylas.com>"
                     example_world).2).2)
      <= 1)%nat
  /\ (drafts_with "<c3p0@mailer.nylas.com>"
        (remote (remote_update_draft 1 3 "<c3p0-1@mailer.nylas.com>"
                   (remote_update_draft 1 3 "<c3p0-1@mailer.nylas.com>"
                      example_world).2).2)
      <= 1)%nat.
Proof.
  destruct remote_update_draft_supersedes as [Hrun Htwice].
  split.
  - apply (Hrun mailbox mailbox_session example_world 1 3
             "<c3p0-1@mailer.nylas.com>" example_message example_email
             (mb_folder_names example_mailbox) (mb_folder_names example_mailbox)
             "INBOX.Drafts" [] example_mailbox example_mailbox example_mailbox
             example_mailbox (with_drafts example_mailbox [(1, example_email)] 2)
             (with_drafts example_mailbox [(1, example_email)] 2) None false);
      try reflexivity.
    vm_compute. eauto.
  - assert (Hne : "<c3p0-1@mailer.nylas.com>" ≠ message_id_header example_message)
      by (vm_compute; discriminate).
    destruct (Htwice example_db example_mailbox [] 1 3 "<c3p0-1@mailer.nylas.com>"
                example_message example_email "INBOX.Drafts" []
                eq_refl eq_refl eq_refl eq_refl)
      as (_ & _ & _ & Hcount & Hsaved).
    split; [exact (Hsaved Hne)|exact Hcount].
Defined.

(** The folder of the example category does not exist remotely: the not-found
    error is swallowed and the row deleted.  When the connection is lost
    instead, the error propagates and the row stays. *)
Lemma remote_delete_folder_outcomes_witness :
  remote_delete_folder 1 7 example_world
  = (Returned tt,
     World (with_categories example_db ∅) example_mailbox
       [Acquire 1; Call folder_separator; Call folder_prefix;
        Call (conn_delete_folder "INBOX.Work.Invoices"); Release 1;
        DbDelete 7; DbCommit])
  /\ remote_delete_folder 1 7 (World example_db connection_lost [])
     = (Raised (socket_error "[Errno 104] Connection reset by peer"),
        World example_db connection_lost
          [Acquire 1; Call folder_separator; Call folder_prefix;
           Call (conn_delete_folder "INBOX.Work.Invoices"); Release 1]).
Proof.
  split.
  - apply (remote_delete_folder_outcomes example_world 1 7
             {| provider := "generic" |} {| display_name := "Work/Invoices" |}
             "." "INBOX." example_mailbox example_mailbox example_mailbox
             (Raised (IMAP4_error "[NONEXISTENT] Mailbox does not exist")));
      [reflexivity | reflexivity | split; reflexivity | reflexivity].
  - apply (remote_delete_folder_outcomes (World example_db connection_lost []) 1 7
             {| provider := "generic" |} {| display_name := "Work/Invoices" |}
             "." "INBOX." connection_lost connection_lost connection_lost
             (Raised (socket_error "[Errno 104] Connection reset by peer")));
      [reflexivity | reflexivity | split; reflexivity | reflexivity].
Defined.

(** The old header is the new one: each of the two invocations appends the
    draft (and then deletes it), so two drafts are created, not at most one. *)
Lemma remote_update_draft_twice_same_header :
  let once := remote_update_draft 1 3 "<c3p0@mailer.nylas.com>" example_world in
  let twice := remote_update_draft 1 3 "<c3p0@mailer.nylas.com>" once.2 in
  message_id_header example_message = "<c3p0@mailer.nylas.com>"
  /\ once.1 = Returned tt
  /\ twice.1 = Returned tt
  /\ saved_drafts (trace twice.2) = 2%nat
  /\ ~ (saved_drafts (trace twice.2) <= 1)%nat.
Proof.
  cbv zeta. repeat split; try (vm_compute; reflexivity).
  vm_compute. lia.
Qed.

(** C3, where the code departs from it: the folder exists on the remote and
    the remote refuses its deletion for lack of permission, which is not a
    folder-not-found condition.  The guard of the handler, commented as
    standing for a folder already deleted on the remote, swallows the error
    all the same: the handler returns normally and the local category row is
    deleted, instead of the error propagating and the row staying. *)
Lemma remote_delete_folder_swallows_permission_denied :
  let w := World example_db permission_denied [] in
  (respond (conn_delete_folder "INBOX.Work.Invoices") permission_denied).1
  = Raised (IMAP4_error "delete failed: [NOPERM] Permission denied")
  /\ "INBOX.Work.Invoices" ∈ mb_folders (mailbox_of permission_denied)
  /\ categories (db w) !! 7 = Some {| display_name := "Work/Invoices" |}
  /\ (remote_delete_folder 1 7 w).1 = Returned tt
  /\ categories (db (remote_delete_folder 1 7 w).2) !! 7 = None
  /\ ~ ((remote_delete_folder 1 7 w).1
        = Raised (IMAP4_error "delete failed: [NOPERM] Permission denied")
        /\ categories (db (remote_delete_folder 1 7 w).2) !! 7
           = Some {| display_name := "Work/Invoices" |}).
Proof.
  cbv zeta. split; [reflexivity|]. split; [|split; [reflexivity|]].
  - cbn. rewrite !elem_of_cons. tauto.
  - split; [vm_compute; reflexivity|]. split; [vm_compute; reflexivity|].
    intros [Hraised _]. vm_compute in Hraised. discriminate.
Qed.

(** The folder of the example category is created for the gmail account and
    for the generic account. *)
Lemma folder_name_translation_witness :
  remote_create_folder 2 7 example_world
  = (Returned tt,
     World example_db
       (with_folders example_mailbox ["INBOX"; "INBOX.Drafts"; "Work/Invoices"])
       [Acquire 2; Call (conn_create_folder "Work/Invoices"); Release 2])
  /\ remote_create_folder 1 7 example_world
     = (Returned tt,
        World (with_categories example_db
                 {[ 7 := {| display_name := "INBOX.Work.Invoices" |} ]})
          (with_folders example_mailbox
             ["INBOX"; "INBOX.Drafts"; "INBOX.Work.Invoices"])
          [Acquire 1; Call folder_separator; Call folder_prefix;
           Call (conn_create_folder "INBOX.Work.Invoices"); Release 1;
           DbSetDisplayName 7 "INBOX.Work.Invoices"])
  /\ substitute_separator "." "Invoices" = "Invoices"
  /\ calls_of (trace (remote_create_folder 1 7 example_world).2)
     = [folder_separator; folder_prefix; conn_create_folder "INBOX.Work.Invoices"]
  /\ calls_of (trace (remote_create_folder 2 7 example_world).2)
     = [conn_create_folder "Work/Invoices"].
Proof.
  destruct (folder_name_translation example_world 2 7 {| provider := "gmail" |}
              {| display_name := "Work/Invoices" |} eq_refl eq_refl)
    as (Hflat & _ & _ & _ & _ & Hgmail).
  destruct (folder_name_translation example_world 1 7 {| provider := "generic" |}
              {| display_name := "Work/Invoices" |} eq_refl eq_refl)
    as (_ & Hother & _ & Hkept & Hgeneric & _).
  split.
  { rewrite (Hflat (or_introl eq_refl) (Returned tt)
               (with_folders example_mailbox
                  ["INBOX"; "INBOX.Drafts"; "Work/Invoices"]) eq_refl).
    reflexivity. }
  split.
  { assert (Hgmail' : provider {| provider := "generic" |} ≠ "gmail") by discriminate.
    assert (Heas' : provider {| provider := "generic" |} ≠ "eas") by discriminate.
    rewrite (Hother Hgmail' Heas' "." "INBOX." example_mailbox example_mailbox
               (with_folders example_mailbox
                  ["INBOX"; "INBOX.Drafts"; "INBOX.Work.Invoices"])
               (Returned tt) eq_refl eq_refl eq_refl).
    vm_compute. reflexivity. }
  split.
  { apply Hkept. intros Hin. apply list_elem_of_In in Hin. cbn in Hin.
    repeat (destruct Hin as [Hin|Hin]; [discriminate|]). exact Hin. }
  split.
  { assert (Hgmail' : provider {| provider := "generic" |} ≠ "gmail") by discriminate.
    assert (Heas' : provider {| provider := "generic" |} ≠ "eas") by discriminate.
    exact (Hgeneric Hgmail' Heas' eq_refl example_mailbox example_mailbox
             (with_folders example_mailbox
                ["INBOX"; "INBOX.Drafts"; "INBOX.Work.Invoices"])
             (Returned tt) eq_refl eq_refl eq_refl). }
  exact (Hgmail eq_refl eq_refl).
Defined.

(** The message of the example, in Inbox and in Work, is moved to Archive. *)
Lemma remote_move_per_folder_witness :
  remote_move 1 3 "Archive" example_world
  = (Returned tt,
     World example_db example_mailbox
       [Acquire 1;
        Call (select_folder "Work"); Call (conn_copy [9] "Archive");
        Call (delete_uids [9]);
        Call (select_folder "Inbox"); Call (conn_copy [5] "Archive");
        Call (delete_uids [5]);
        Release 1])
  /\ remote_move 1 3 "Archive" (World example_db copy_refused [])
     = (Raised (IMAP4_error "copy failed: [OVERQUOTA] Quota exceeded"),
        World example_db copy_refused
          [Acquire 1;
           Call (select_folder "Work"); Call (conn_copy [9] "Archive");
           Release 1])
  /\ (remote_move 1 3 "Archive" example_world).1 = Returned tt
  /\ exists events,
       trace (remote_move 1 3 "Archive" example_world).2
       = trace example_world ++ events
       /\ events
          = [Acquire 1]
            ++ mjoin (move_block "Archive"
                        <$> map_to_list (uids_by_folder 3 (db example_world)))
            ++ [Release 1]
       /\ copied_uids "Archive" events
          ≡ₚ (query_msg_uid_folder_name 3 (db example_world)).*1.
Proof.
  destruct (remote_move_per_folder example_world 1 3 "Archive" example_has_uids)
    as (Hrun & Hcopies & Hreturns & _).
  destruct (remote_move_per_folder (World example_db copy_refused []) 1 3 "Archive"
              example_has_uids) as (Hrefused & _).
  assert (Hreturned : (remote_move 1 3 "Archive" example_world).1 = Returned tt).
  { apply Hreturns, mailbox_answers. vm_compute. reflexivity. }
  split; [rewrite Hrun; vm_compute; reflexivity|].
  split; [rewrite Hrefused; vm_compute; reflexivity|].
  split; [exact Hreturned|]. exact (Hcopies Hreturned).
Defined.

(** The end-to-end example of the specification: "Work/Invoices" is created as
    "INBOX.Work.Invoices" and the category renamed to it. *)
Lemma remote_create_folder_translates_witness :
  remote_create_folder 1 7 example_world
  = (Returned tt,
     World (with_categories example_db
              {[ 7 := {| display_name := "INBOX.Work.Invoices" |} ]})
       (with_folders example_mailbox ["INBOX"; "INBOX.Drafts"; "INBOX.Work.Invoices"])
       [Acquire 1; Call folder_separator; Call folder_prefix;
        Call (conn_create_folder "INBOX.Work.Invoices"); Release 1;
        DbSetDisplayName 7 "INBOX.Work.Invoices"])
  /\ display_name <$> categories (db (remote_create_folder 1 7 example_world).2) !! 7
     = Some "INBOX.Work.Invoices".
Proof.
  destruct (remote_create_folder_translates example_world 1 7
              {| provider := "generic" |} {| display_name := "Work/Invoices" |}
              "." "INBOX." example_mailbox example_mailbox
              (with_folders example_mailbox
                 ["INBOX"; "INBOX.Drafts"; "INBOX.Work.Invoices"])
              eq_refl eq_refl (conj eq_refl eq_refl) eq_refl)
    as [Hrun Hname].
  split; [|exact Hname]. rewrite Hrun. vm_compute. reflexivity.
Defined.

(** The message of the example, at UID 5 of Inbox and UID 9 of Work, is
    starred. *)
Lemma set_flag_per_folder_witness :
  set_remote_starred 1 3 true example_world
  = (Returned tt,
     World example_db example_mailbox
       [Acquire 1;
        Call (select_folder "Work"); Call (conn_add_flags [9] ["\Flagged"]);
        Call (select_folder "Inbox"); Call (conn_add_flags [5] ["\Flagged"]);
        Release 1])
  /\ (set_remote_starred 1 3 true example_world).1 = Returned tt
  /\ exists items,
       items ≡ₚ [("Inbox", [5]); ("Work", [9])]
       /\ set_remote_starred 1 3 true example_world
          = match session_run
                    (items ≫= fun item : string * list Z =>
                                [select_folder item.1;
                                 conn_add_flags item.2 ["\Flagged"]])
                    (remote example_world) with
            | (o, r', events) =>
                (o, World (db example_world) r'
                      (trace example_world ++ [Acquire 1] ++ events ++ [Release 1]))
            end.
Proof.
  destruct (set_flag_per_folder example_world 1 3 "\Flagged" true example_has_uids)
    as (Hrun & _ & Hreturns & _ & _ & Hexample).
  assert (Hreturned : (set_remote_starred 1 3 true example_world).1 = Returned tt).
  { apply Hreturns, mailbox_answers. vm_compute. reflexivity. }
  split; [unfold set_remote_starred; rewrite Hrun; vm_compute; reflexivity|].
  split; [exact Hreturned|].
  apply Hexample. vm_compute. reflexivity.
Defined.

(** Message 4 does not exist; message 3 does, and the example mailbox has no
    sent folder. *)
Lemma remote_save_sent_noops_witness :
  remote_save_sent 1 4 example_world
  = (Returned tt,
     World example_db example_mailbox
       [Log info "tried to create nonexistent message"])
  /\ remote_save_sent 1 3 example_world
     = (Returned tt,
        World example_db example_mailbox
          [Acquire 1; Call folder_names;
           Log info "Account has no detected sent folder; not saving message";
           Release 1]).
Proof.
  destruct (remote_save_sent_noops example_world 1 4) as [Hmissing _].
  destruct (remote_save_sent_noops example_world 1 3) as [_ Hsent].
  split; [apply Hmissing; reflexivity|].
  apply (Hsent example_message (mb_folder_names example_mailbox) example_mailbox);
    [reflexivity | discriminate | reflexivity | reflexivity].
Defined.

(** Message 4 does not exist, message 3 can be built, message 5 has no
    sender. *)
Lemma draft_handlers_require_message_witness :
  remote_save_draft 1 4 example_world = (Raised AttributeError, example_world)
  /\ remote_update_draft 1 4 "<c3p0-1@mailer.nylas.com>" example_world
     = (Raised AttributeError, example_world)
  /\ (remote_save_sent 1 4 example_world).1 = Returned tt
  /\ (exists e, _create_email (accounts (db example_world) !! 1)
                  (messages (db example_world) !! 3) = Returned e)
  /\ remote_save_draft 1 5 example_world = (Raised IndexError, example_world)
  /\ remote_update_draft 1 5 "<r2d2-1@mailer.nylas.com>" example_world
     = (Raised IndexError, example_world).
Proof.
  destruct (draft_handlers_require_message example_world 1 4
              "<c3p0-1@mailer.nylas.com>") as (Hmissing & _ & _).
  destruct (draft_handlers_require_message example_world 1 3
              "<c3p0-1@mailer.nylas.com>") as (_ & Hbuilt & _).
  destruct (draft_handlers_require_message example_world 1 5
              "<r2d2-1@mailer.nylas.com>") as (_ & _ & Hsender).
  destruct (Hmissing eq_refl) as (Hsave & Hupdate & Hsent).
  destruct (Hsender example_message_without_sender eq_refl eq_refl)
    as [Hsave' Hupdate'].
  split; [exact Hsave|]. split; [exact Hupdate|]. split; [exact Hsent|].
  split; [apply (Hbuilt example_message); [reflexivity|discriminate]|].
  split; [exact Hsave'|exact Hupdate'].
Defined.

(** * Further properties of the handlers *)

Section Coverage.

Context {R : Type} `{Crispin R}.

(** ** The resolver, folder by folder *)

Lemma foldl_defaultdict_append_lookup (rows : list (Z * string))
    (mapping : gmap string (list Z)) (folder_name : string) :
  foldl defaultdict_append mapping rows !! folder_name
  = match uids_in folder_name rows with
    | [] => mapping !! folder_name
    | uids => Some (default [] (mapping !! folder_name) ++ uids)
    end.
Proof.
  revert mapping. induction rows as [|[uid f] rows IH]; intros mapping; [done|].
  cbn [foldl]. rewrite IH. unfold defaultdict_append, uids_in.
  cbn [omap list_omap fst snd]. case_bool_decide as Hf.
  - subst f. rewrite lookup_insert_eq. cbn [default].
    destruct (omap _ rows) as [|u us]; [done|].
    unfold id. by rewrite <- app_assoc.
  - by rewrite lookup_insert_ne.
Qed.

(** X1: the mapping lists under a folder name the UIDs of the rows of the
    message in that folder, in the order of the rows, and has no entry for a
    folder without such a row: no folder of the mapping has an empty UID
    list. *)
Theorem uids_by_folder_lookup (message_id : Z) (d : Db) (folder_name : string) :
  uids_by_folder message_id d !! folder_name
  = match uids_in folder_name (query_msg_uid_folder_name message_id d) with
    | [] => None
    | uids => Some uids
    end.
Proof.
  unfold uids_by_folder. rewrite foldl_defaultdict_append_lookup.
  rewrite lookup_empty. by destruct (uids_in _ _).
Qed.

(** ** Computations that keep the datastore *)

Lemma quiet_ret {A} (ok : event -> bool) (a : A) : quiet ok (ret a : M R A).
Proof. intros w. split; [done|]. exists []. by rewrite app_nil_r. Qed.

Lemma quiet_raise {A} (ok : event -> bool) (e : exn) : quiet ok (raise e : M R A).
Proof. intros w. split; [done|]. exists []. by rewrite app_nil_r. Qed.

Lemma quiet_lift {A} (ok : event -> bool) (o : outcome A) : quiet ok (lift o : M R A).
Proof. intros w. split; [done|]. exists []. by rewrite app_nil_r. Qed.

Lemma quiet_db_session (ok : event -> bool) : quiet ok (db_session : M R Db).
Proof. intros w. split; [done|]. exists []. by rewrite app_nil_r. Qed.

Lemma quiet_query_get {A} (ok : event -> bool) (table : Db -> gmap Z A) (id : Z) :
  quiet ok (query_get table id : M R (option A)).
Proof. intros w. split; [done|]. exists []. by rewrite app_nil_r. Qed.

Lemma quiet_getattr {A B} (ok : event -> bool) (o : option A) (attr : A -> B) :
  quiet ok (getattr o attr : M R B).
Proof. destruct o; [apply quiet_ret|apply quiet_raise]. Qed.

Lemma quiet_getitem {A} (ok : event -> bool) (d : gmap string A) (key : string) :
  quiet ok (getitem d key : M R A).
Proof. unfold getitem. destruct (d !! key); [apply quiet_ret|apply quiet_raise]. Qed.

Lemma quiet_first_item {A} (ok : event -> bool) (l : list A) :
  quiet ok (first_item l : M R A).
Proof. destruct l; [apply quiet_raise|apply quiet_ret]. Qed.

Lemma quiet_log (ok : event -> bool) (lvl : level) (msg : string) :
  ok (Log lvl msg) = true -> quiet ok (log lvl msg : M R unit).
Proof.
  intros Hok w. split; [done|]. exists [Log lvl msg]. split; [done|].
  cbn. by rewrite Hok.
Qed.

Lemma quiet_crispin_client (ok : event -> bool) (c : call) :
  ok (Call c) = true -> quiet ok (crispin_client c).
Proof.
  intros Hok w. unfold crispin_client.
  destruct (respond c (remote w)) as [o r']. split; [done|].
  exists [Call c]. split; [done|]. cbn. by rewrite Hok.
Qed.

Lemma quiet_bind {A B} (ok : event -> bool) (m : M R A) (k : A -> M R B) :
  quiet ok m -> (forall a, quiet ok (k a)) -> quiet ok (bind m k).
Proof.
  intros Hm Hk w. unfold bind.
  destruct (Hm w) as [Hdb (events & Ht & Hok)].
  destruct (m w) as [[a|e] w1]; cbn [snd] in *.
  - destruct (Hk a w1) as [Hdb' (events' & Ht' & Hok')].
    split; [congruence|]. exists (events ++ events').
    rewrite Ht', Ht, app_assoc. split; [done|].
    by rewrite forallb_app, Hok, Hok'.
  - split; [done|]. eauto.
Qed.

Lemma quiet_for_each {A} (ok : event -> bool) (l : list A) (body : A -> M R unit) :
  (forall x, quiet ok (body x)) -> quiet ok (for_each l body).
Proof.
  intros Hbody. induction l as [|x l IH]; [apply quiet_ret|].
  cbn [for_each]. apply quiet_bind; [apply Hbody|intros _; exact IH].
Qed.

Lemma quiet_session_scope {A} (ok : event -> bool) (account_id : Z) (block : M R A) :
  quiet ok block -> quiet ok (session_scope account_id block).
Proof.
  intros Hblock w. unfold session_scope.
  destruct (Hblock w) as [Hdb Hevents].
  destruct (block w) as [[a|e] w1]; cbn [snd db trace] in *; by split.
Qed.

Lemma quiet_try_except_IMAP4_error (ok : event -> bool) (block : M R unit) :
  quiet ok block -> quiet ok (try_except_IMAP4_error block).
Proof.
  intros Hblock w. unfold try_except_IMAP4_error.
  destruct (Hblock w) as [Hdb Hevents].
  destruct (block w) as [[a|e] w1]; [|destruct (isinstance_IMAP4_error e)];
    cbn [snd] in *; by split.
Qed.

(** The session is acquired before the block and released after it, however
    the block ends. *)
Lemma quiet_writable_connection_pool_get {A} (account_id : Z) (block : M R A) :
  quiet in_session block ->
  forall w,
    db (writable_connection_pool_get account_id block w).2 = db w
    /\ exists inner,
         trace (writable_connection_pool_get account_id block w).2
         = trace w ++ [Acquire account_id] ++ inner ++ [Release account_id]
         /\ forallb in_session inner = true.
Proof.
  intros Hblock w. unfold writable_connection_pool_get.
  destruct (Hblock (World (db w) (remote w) (trace w ++ [Acquire account_id])))
    as [Hdb (inner & Ht & Hok)].
  destruct (block _) as [o w1]. cbn [snd db trace] in *.
  split; [done|]. exists inner. split; [|done].
  rewrite Ht, <- !app_assoc. reflexivity.
Qed.

Lemma quiet_session (account_id : Z) {A} (block : M R A) :
  quiet in_session block ->
  quiet (fun _ => true) (writable_connection_pool_get account_id block).
Proof.
  intros Hblock w.
  destruct (quiet_writable_connection_pool_get account_id block Hblock w)
    as [Hdb (inner & Ht & _)].
  split; [done|]. eexists. split; [exact Ht|].
  apply forallb_forall. done.
Qed.

Ltac quiet_step :=
  first
    [ apply quiet_ret | apply quiet_raise | apply quiet_lift
    | apply quiet_db_session | apply quiet_query_get | apply quiet_getattr
    | apply quiet_getitem | apply quiet_first_item
    | apply quiet_log; reflexivity
    | match goal with
      | |- quiet ?ok (crispin_client ?c) => exact (quiet_crispin_client ok c eq_refl)
      end
    | apply quiet_session_scope
    | apply quiet_try_except_IMAP4_error
    | apply quiet_session
    | apply quiet_for_each; intros ?
    | apply quiet_bind; [|intros ?]
    | match goal with
      | |- quiet _ (match ?x with _ => _ end) => destruct x
      end ].

(** ** Scoped traces *)

Lemma scoped_app (account_id : Z) (held : bool) (events events' : list event) :
  scoped account_id held events = true ->
  scoped account_id held (events ++ events') = scoped account_id false events'.
Proof.
  revert held. induction events as [|e events IH]; intros held.
  - cbn. by destruct held.
  - destruct e; cbn [app scoped]; destruct held; cbn [negb andb];
      try discriminate; intros Hs; try (by apply IH).
    + apply andb_prop in Hs as [Hd Hs]. rewrite Hd. by apply IH.
    + apply andb_prop in Hs as [Hd Hs]. rewrite Hd. by apply IH.
Qed.

Lemma scoped_out_of_session (account_id : Z) (events : list event) :
  forallb out_of_session events = true -> scoped account_id false events = true.
Proof.
  induction events as [|e events IH]; [done|]. cbn [forallb].
  intros [He Hrest]%andb_prop. destruct e; try discriminate; cbn; by apply IH.
Qed.

Lemma scoped_in_session (account_id : Z) (inner : list event) :
  forallb in_session inner = true ->
  scoped account_id true (inner ++ [Release account_id]) = true.
Proof.
  induction inner as [|e inner IH]; cbn [forallb app scoped].
  - intros _. cbn. by rewrite bool_decide_eq_true_2.
  - intros [He Hrest]%andb_prop. destruct e; try discriminate; cbn; by apply IH.
Qed.

Lemma scoped_handler_quiet {A} (account_id : Z) (m : M R A) :
  quiet out_of_session m -> scoped_handler account_id m.
Proof.
  intros Hm w. destruct (Hm w) as [_ (events & Ht & Hok)].
  exists events. split; [done|]. by apply scoped_out_of_session.
Qed.

Lemma scoped_handler_session {A} (account_id : Z) (block : M R A) :
  quiet in_session block ->
  scoped_handler account_id (writable_connection_pool_get account_id block).
Proof.
  intros Hblock w.
  destruct (quiet_writable_connection_pool_get account_id block Hblock w)
    as [_ (inner & Ht & Hok)].
  eexists. split; [exact Ht|]. cbn [app scoped negb andb].
  rewrite bool_decide_eq_true_2 by done. by apply scoped_in_session.
Qed.

Lemma scoped_handler_bind {A B} (account_id : Z) (m : M R A) (k : A -> M R B) :
  scoped_handler account_id m -> (forall a, scoped_handler account_id (k a)) ->
  scoped_handler account_id (bind m k).
Proof.
  intros Hm Hk w. unfold bind. destruct (Hm w) as (events & Ht & Hs).
  destruct (m w) as [[a|e] w1]; cbn [snd] in *.
  - destruct (Hk a w1) as (events' & Ht' & Hs').
    exists (events ++ events'). rewrite Ht', Ht, app_assoc. split; [done|].
    by rewrite (scoped_app _ _ _ _ Hs).
  - eauto.
Qed.

Lemma scoped_handler_write_back (account_id category_id : Z) (new_display_name : string) :
  scoped_handler account_id
    (session_scope account_id
       (bind (query_get categories category_id) (fun category =>
          set_display_name category_id category new_display_name)) : M R unit).
Proof.
  intros w. unfold session_scope, bind, query_get, set_display_name.
  destruct (categories (db w) !! category_id); cbn.
  - by exists [DbSetDisplayName category_id new_display_name].
  - exists []. by rewrite app_nil_r.
Qed.

Lemma scoped_handler_local_delete (account_id category_id : Z) :
  scoped_handler account_id
    (session_scope account_id
       (bind (query_get categories category_id) (fun category =>
          bind (db_delete category_id category) (fun _ => db_commit))) : M R unit).
Proof.
  intros w. unfold session_scope, bind, query_get, db_delete, db_commit, emit.
  destruct (categories (db w) !! category_id); cbn.
  - exists [DbDelete category_id; DbCommit]. by rewrite <- app_assoc.
  - exists []. by rewrite app_nil_r.
Qed.

Ltac scoped_step :=
  first
    [ apply scoped_handler_write_back
    | apply scoped_handler_local_delete
    | apply scoped_handler_session; repeat quiet_step
    | apply scoped_handler_quiet; solve [repeat quiet_step]
    | apply scoped_handler_bind; [|intros ?]
    | match goal with
      | |- scoped_handler _ (match ?x with _ => _ end) => destruct x
      end ].

(** X3: whatever the session answers and however a handler ends, by a
    return or by an exception, what it adds to the trace is scoped: the session
    of the account is released once it was acquired, calls are made only while
    it is held, and the datastore is written only while it is not. *)
Theorem handlers_scope_the_session (account_id id : Z) (flag : bool)
    (text text' : string) :
  scoped_handler account_id (set_remote_starred account_id id flag)
  /\ scoped_handler account_id (set_remote_unread account_id id flag)
  /\ scoped_handler account_id (remote_move account_id id text)
  /\ scoped_handler account_id (remote_create_folder account_id id)
  /\ scoped_handler account_id (remote_update_folder account_id id text)
  /\ scoped_handler account_id (remote_delete_folder account_id id)
  /\ scoped_handler account_id (remote_save_draft account_id id)
  /\ scoped_handler account_id (remote_update_draft account_id id text)
  /\ scoped_handler account_id (remote_delete_draft account_id text text')
  /\ scoped_handler account_id (remote_delete_sent account_id text flag)
  /\ scoped_handler account_id (remote_save_sent account_id id).
Proof.
  repeat split.
  - unfold set_remote_starred, _set_flag. repeat scoped_step.
  - unfold set_remote_unread, _set_flag. repeat scoped_step.
  - unfold remote_move. repeat scoped_step.
  - unfold remote_create_folder, read_provider_and_display_name. repeat scoped_step.
  - unfold remote_update_folder, read_provider_and_display_name. repeat scoped_step.
  - unfold remote_delete_folder, read_provider_and_display_name. repeat scoped_step.
  - unfold remote_save_draft. repeat scoped_step.
  - unfold remote_update_draft. repeat scoped_step.
  - unfold remote_delete_draft. repeat scoped_step.
  - unfold remote_delete_sent. repeat scoped_step.
  - unfold remote_save_sent. repeat scoped_step.
Qed.

(** X4: the flag, move, draft and sent handlers never change the datastore,
    whatever the session answers and however they end. *)
Theorem message_handlers_keep_the_datastore (w : world R) (account_id id : Z)
    (flag : bool) (text text' : string) :
  db (set_remote_starred account_id id flag w).2 = db w
  /\ db (set_remote_unread account_id id flag w).2 = db w
  /\ db (remote_move account_id id text w).2 = db w
  /\ db (remote_save_draft account_id id w).2 = db w
  /\ db (remote_update_draft account_id id text w).2 = db w
  /\ db (remote_delete_draft account_id text text' w).2 = db w
  /\ db (remote_delete_sent account_id text flag w).2 = db w
  /\ db (remote_save_sent account_id id w).2 = db w.
Proof.
  repeat split.
  - assert (Hq : quiet (fun _ => true) (set_remote_starred account_id id flag))
      by (unfold set_remote_starred, _set_flag; repeat quiet_step).
    apply Hq.
  - assert (Hq : quiet (fun _ => true) (set_remote_unread account_id id flag))
      by (unfold set_remote_unread, _set_flag; repeat quiet_step).
    apply Hq.
  - assert (Hq : quiet (fun _ => true) (remote_move account_id id text))
      by (unfold remote_move; repeat quiet_step).
    apply Hq.
  - assert (Hq : quiet (fun _ => true) (remote_save_draft account_id id))
      by (unfold remote_save_draft; repeat quiet_step).
    apply Hq.
  - assert (Hq : quiet (fun _ => true) (remote_update_draft account_id id text))
      by (unfold remote_update_draft; repeat quiet_step).
    apply Hq.
  - assert (Hq : quiet (fun _ => true) (remote_delete_draft account_id text text'))
      by (unfold remote_delete_draft; repeat quiet_step).
    apply Hq.
  - assert (Hq : quiet (fun _ => true) (remote_delete_sent account_id text flag))
      by (unfold remote_delete_sent; repeat quiet_step).
    apply Hq.
  - assert (Hq : quiet (fun _ => true) (remote_save_sent account_id id))
      by (unfold remote_save_sent; repeat quiet_step).
    apply Hq.
Qed.

(** ** Runs that fail part of the way *)

Lemma crispin_client_trace (c : call) (w : world R) :
  trace (crispin_client c w).2 = trace w ++ [Call c].
Proof. unfold crispin_client. by destruct (respond c (remote w)). Qed.

Lemma for_each_prefix {A} (body : A -> M R unit) (block : A -> list event) :
  (forall x w, exists p,
      trace (body x w).2 = trace w ++ p /\ p `prefix_of` block x
      /\ ((body x w).1 = Returned tt -> p = block x)) ->
  forall l w, exists p,
    trace (for_each l body w).2 = trace w ++ p
    /\ p `prefix_of` mjoin (block <$> l).
Proof.
  intros Hbody l. induction l as [|x l IH]; intros w.
  - exists []. cbn. by rewrite app_nil_r.
  - cbn [for_each]. unfold bind.
    destruct (Hbody x w) as (p & Ht & Hp & Hfull).
    destruct (body x w) as [[[]|e] w1]; cbn [fst snd] in *.
    + rewrite (Hfull eq_refl) in Ht. destruct (IH w1) as (p' & Ht' & Hp').
      exists (block x ++ p'). rewrite Ht', Ht, app_assoc. split; [done|].
      cbn. by apply prefix_app.
    + exists p. split; [done|]. cbn. by apply prefix_app_r.
Qed.

Lemma move_body_prefix (destination : string) (item : string * list Z)
    (w : world R) :
  exists p,
    trace ((let '(folder_name, uids) := item in
            bind (crispin_client (select_folder folder_name)) (fun _ =>
              bind (crispin_client (conn_copy uids destination)) (fun _ =>
                crispin_client (delete_uids uids))) : M R unit) w).2
    = trace w ++ p
    /\ p `prefix_of` move_block destination item
    /\ (((let '(folder_name, uids) := item in
          bind (crispin_client (select_folder folder_name)) (fun _ =>
            bind (crispin_client (conn_copy uids destination)) (fun _ =>
              crispin_client (delete_uids uids))) : M R unit) w).1 = Returned tt ->
        p = move_block destination item).
Proof.
  destruct item as [folder_name uids]. unfold bind, move_block. cbn [fst snd].
  pose proof (crispin_client_trace (select_folder folder_name) w) as Ht1.
  destruct (crispin_client (select_folder folder_name) w) as [[[]|e1] w1];
    cbn [fst snd] in *.
  - pose proof (crispin_client_trace (conn_copy uids destination) w1) as Ht2.
    destruct (crispin_client (conn_copy uids destination) w1) as [[[]|e2] w2];
      cbn [fst snd] in *.
    + pose proof (crispin_client_trace (delete_uids uids) w2) as Ht3.
      destruct (crispin_client (delete_uids uids) w2) as [o3 w3];
        cbn [fst snd] in *.
      eexists. split; [by rewrite Ht3, Ht2, Ht1, <- !app_assoc|]. done.
    + eexists. split; [by rewrite Ht2, Ht1, <- !app_assoc|].
      split; [|done]. by eexists [_].
  - eexists. split; [exact Ht1|]. split; [|done]. by eexists [_; _].
Qed.

Lemma flag_body_prefix (flag_name : string) (is_add : bool)
    (item : string * list Z) (w : world R) :
  exists p,
    trace ((let '(folder_name, uids) := item in
            bind (crispin_client (select_folder folder_name)) (fun _ =>
              if is_add
              then crispin_client (conn_add_flags uids [flag_name])
              else crispin_client (conn_remove_flags uids [flag_name])) : M R unit)
             w).2
    = trace w ++ p
    /\ p `prefix_of` flag_block flag_name is_add item
    /\ (((let '(folder_name, uids) := item in
          bind (crispin_client (select_folder folder_name)) (fun _ =>
            if is_add
            then crispin_client (conn_add_flags uids [flag_name])
            else crispin_client (conn_remove_flags uids [flag_name])) : M R unit)
           w).1
        = Returned tt ->
        p = flag_block flag_name is_add item).
Proof.
  destruct item as [folder_name uids]. unfold bind, flag_block. cbn [fst snd].
  pose proof (crispin_client_trace (select_folder folder_name) w) as Ht1.
  destruct (crispin_client (select_folder folder_name) w) as [[[]|e1] w1];
    cbn [fst snd] in *.
  - destruct is_add.
    + pose proof (crispin_client_trace (conn_add_flags uids [flag_name]) w1) as Ht2.
      destruct (crispin_client (conn_add_flags uids [flag_name]) w1) as [o2 w2];
        cbn [fst snd] in *.
      eexists. split; [by rewrite Ht2, Ht1, <- !app_assoc|]. done.
    + pose proof (crispin_client_trace (conn_remove_flags uids [flag_name]) w1)
        as Ht2.
      destruct (crispin_client (conn_remove_flags uids [flag_name]) w1) as [o2 w2];
        cbn [fst snd] in *.
      eexists. split; [by rewrite Ht2, Ht1, <- !app_assoc|]. done.
  - eexists. split; [exact Ht1|]. split; [|done]. by eexists [_].
Qed.

(** In a prefix of the blocks of a move, a deletion comes right after the copy
    of the same UIDs. *)
Lemma move_blocks_copy_before_delete (destination : string)
    (items : list (string * list Z)) (p pre post : list event) (uids : list Z) :
  p `prefix_of` mjoin (move_block destination <$> items) ->
  p = pre ++ Call (delete_uids uids) :: post ->
  exists pre', pre = pre' ++ [Call (conn_copy uids destination)].
Proof.
  revert p pre post. induction items as [|[folder_name uids'] items IH];
    intros p pre post Hp ->.
  - apply prefix_nil_inv in Hp. by destruct pre.
  - cbn in Hp. destruct pre as [|e1 [|e2 [|e3 pre]]]; cbn in Hp.
    + apply prefix_cons_inv_1 in Hp. discriminate.
    + apply prefix_cons_inv_2, prefix_cons_inv_1 in Hp. discriminate.
    + pose proof (prefix_cons_inv_1 _ _ _ _ Hp) as ->.
      apply prefix_cons_inv_2 in Hp.
      pose proof (prefix_cons_inv_1 _ _ _ _ Hp) as ->.
      apply prefix_cons_inv_2, prefix_cons_inv_1 in Hp. injection Hp as ->.
      by exists [Call (select_folder folder_name)].
    + pose proof (prefix_cons_inv_1 _ _ _ _ Hp) as ->.
      apply prefix_cons_inv_2 in Hp.
      pose proof (prefix_cons_inv_1 _ _ _ _ Hp) as ->.
      apply prefix_cons_inv_2 in Hp.
      pose proof (prefix_cons_inv_1 _ _ _ _ Hp) as ->.
      apply prefix_cons_inv_2 in Hp.
      destruct (IH _ pre post Hp eq_refl) as [pre' ->].
      by eexists (_ :: _ :: _ :: pre').
Qed.

(** However a move ends, what it did on the session is a prefix of select,
    copy, delete for each folder of the mapping. *)
Lemma remote_move_prefix (w : world R)
    (account_id message_id : Z) (destination : string) :
  let mapping := uids_by_folder message_id (db w) in
  mapping ≠ ∅ ->
  exists p,
    trace (remote_move account_id message_id destination w).2
    = trace w ++ [Acquire account_id] ++ p ++ [Release account_id]
    /\ p `prefix_of` mjoin (move_block destination <$> map_to_list mapping)
    /\ forall pre uids post,
         p = pre ++ Call (delete_uids uids) :: post ->
         exists pre', pre = pre' ++ [Call (conn_copy uids destination)].
Proof.
  intros mapping Hne. rewrite (remote_move_unfold w _ _ _ Hne).
  unfold writable_connection_pool_get.
  match goal with |- context [for_each ?l ?body ?w0] =>
    destruct (for_each_prefix body (move_block destination)
                (move_body_prefix destination) l w0) as (p & Ht & Hp);
    destruct (for_each l body w0) as [o w1] end.
  cbn [snd trace] in *. exists p. split; [by rewrite Ht, <- !app_assoc|].
  split; [exact Hp|].
  intros pre uids post Heq.
  exact (move_blocks_copy_before_delete destination _ p pre post uids Hp Heq).
Qed.

(** X5: however a move ends, by a return or by an exception part of the way,
    what it did on the session is a prefix of select, copy, delete for each
    folder of the mapping, and UIDs are deleted from a source folder only
    after their copy to the destination succeeded: a delete comes right after
    the copy of the same UIDs, the calls before that copy had all returned, and
    the session answered that copy by returning. *)
Theorem remote_move_never_deletes_before_copy (w : world R)
    (account_id message_id : Z) (destination : string) :
  let mapping := uids_by_folder message_id (db w) in
  mapping ≠ ∅ ->
  exists p,
    trace (remote_move account_id message_id destination w).2
    = trace w ++ [Acquire account_id] ++ p ++ [Release account_id]
    /\ p `prefix_of` mjoin (move_block destination <$> map_to_list mapping)
    /\ forall pre uids post,
         p = pre ++ Call (delete_uids uids) :: post ->
         exists pre' r_mid r_next,
           pre = pre' ++ [Call (conn_copy uids destination)]
           /\ session_run (calls_of pre') (remote w) = (Returned tt, r_mid, pre')
           /\ respond (conn_copy uids destination) r_mid = (Returned tt, r_next).
Proof.
  intros mapping Hne.
  destruct (remote_move_prefix w account_id message_id destination Hne)
    as (p & Ht & Hp & Hbefore).
  exists p. split; [exact Ht|]. split; [exact Hp|].
  intros pre uids post Heq.
  destruct (Hbefore pre uids post Heq) as [pre' ->].
  pose proof (remote_move_performs w account_id message_id destination Hne) as Hrun.
  unfold performs_in_session in Hrun.
  destruct (session_run _ (remote w)) as [[o r'] events] eqn:Hs.
  rewrite Hrun in Ht. cbn [snd trace] in Ht.
  apply app_inv_head in Ht. cbn [app] in Ht. injection Ht as Ht.
  apply app_inv_tail in Ht. subst events.
  rewrite <- app_assoc in Heq. cbn [app] in Heq.
  destruct (session_run_answered _ _ _ _ _ pre' post
              (conn_copy uids destination) (Call (delete_uids uids)) Hs Heq)
    as (r_mid & r_next & [] & Hpre & Hcopy).
  exists pre', r_mid, r_next. by split.
Qed.

(** X6: however a flag action ends, what it did on the session is a prefix of
    select, add-or-remove for each folder of the mapping: no other folder is
    selected and no other UIDs are flagged, also when a call fails part of the
    way. *)
Theorem set_flag_stays_within_mapping (w : world R) (account_id message_id : Z)
    (flag_name : string) (is_add : bool) :
  let mapping := uids_by_folder message_id (db w) in
  mapping ≠ ∅ ->
  exists p,
    trace (_set_flag account_id message_id flag_name is_add w).2
    = trace w ++ [Acquire account_id] ++ p ++ [Release account_id]
    /\ p `prefix_of` mjoin (flag_block flag_name is_add <$> map_to_list mapping)
    /\ forall c, Call c ∈ p ->
         exists folder_name uids,
           mapping !! folder_name = Some uids
           /\ (c = select_folder folder_name
               \/ c = (if is_add then conn_add_flags uids [flag_name]
                       else conn_remove_flags uids [flag_name])).
Proof.
  intros mapping Hne. rewrite (_set_flag_unfold w _ _ _ _ Hne).
  unfold writable_connection_pool_get.
  match goal with |- context [for_each ?l ?body ?w0] =>
    destruct (for_each_prefix body (flag_block flag_name is_add)
                (flag_body_prefix flag_name is_add) l w0) as (p & Ht & Hp);
    destruct (for_each l body w0) as [o w1] end.
  cbn [snd trace] in *. exists p. split; [by rewrite Ht, <- !app_assoc|].
  split; [exact Hp|].
  intros c Hc. destruct Hp as [k Hk]. subst mapping.
  assert (Hin : Call c ∈ mjoin (flag_block flag_name is_add
                                  <$> map_to_list (uids_by_folder message_id (db w))))
    by (rewrite Hk, elem_of_app; by left).
  apply list_elem_of_join in Hin as (blk & Hblk & Hblks).
  apply list_elem_of_fmap in Hblks as ([folder_name uids] & -> & Hitem).
  apply elem_of_map_to_list in Hitem.
  exists folder_name, uids. split; [exact Hitem|].
  unfold flag_block in Hblk. cbn [fst snd] in Hblk.
  rewrite !elem_of_cons, elem_of_nil in Hblk.
  destruct Hblk as [[= ->]|[[= ->]|[]]]; [by left|by right].
Qed.

(** X2: a UID is listed under a folder of the mapping exactly when the
    datastore has a row for the message with that UID whose folder exists and
    bears that name; rows of other messages and rows whose folder is gone do
    not show. *)
Theorem uids_by_folder_elem (message_id : Z) (d : Db) (folder_name : string)
    (uid : Z) :
  (exists uids, uids_by_folder message_id d !! folder_name = Some uids /\ uid ∈ uids)
  <-> exists row : ImapUid,
        row ∈ imapuids d
        /\ uid_message_id row = message_id
        /\ msg_uid row = uid
        /\ name <$> folders d !! uid_folder_id row = Some folder_name.
Proof.
  rewrite uids_by_folder_lookup.
  assert (Hin : uid ∈ uids_in folder_name (query_msg_uid_folder_name message_id d)
                <-> exists row : ImapUid,
                      row ∈ imapuids d
                      /\ uid_message_id row = message_id
                      /\ msg_uid row = uid
                      /\ name <$> folders d !! uid_folder_id row = Some folder_name).
  { unfold uids_in, query_msg_uid_folder_name. rewrite list_elem_of_omap. split.
    - intros ([u f] & Hrow & Hf). cbn [fst snd] in Hf.
      case_bool_decide; [|done]. injection Hf as ->. subst f.
      apply list_elem_of_omap in Hrow as (row & Hrow & Hjoin).
      case_bool_decide; [|done].
      destruct (folders d !! uid_folder_id row) as [fd|] eqn:Hfd; [|done].
      injection Hjoin as <- <-. exists row. by rewrite Hfd.
    - intros (row & Hrow & Hm & Hu & Hf).
      exists (uid, folder_name). cbn [fst snd].
      rewrite bool_decide_eq_true_2 by done. split; [|done].
      apply list_elem_of_omap. exists row. split; [done|].
      rewrite bool_decide_eq_true_2 by done.
      destruct (folders d !! uid_folder_id row) as [fd|]; [|done].
      cbn in Hf |- *. injection Hf as <-. by rewrite Hu. }
  rewrite <- Hin. split.
  - intros (uids & Hsome & Huid).
    destruct (uids_in folder_name _); [done|]. by injection Hsome as <-.
  - intros Huid. destruct (uids_in folder_name _) as [|u us] eqn:Hus.
    + by apply elem_of_nil in Huid.
    + eauto.
Qed.

(** X7: marking a message unread removes the flag [\Seen] and marking it read
    adds it.  For a message with remote UIDs [set_remote_unread] is the run,
    inside the session, of select-folder then remove [\Seen] from the UIDs of
    the folder when [unread] is true, add it when [unread] is false, for each
    folder of the mapping: it stops at the first call that raises, and the
    session is left as those calls leave it. *)
Theorem set_remote_unread_polarity (w : world R) (account_id message_id : Z)
    (unread : bool) :
  uids_by_folder message_id (db w) ≠ ∅ ->
  set_remote_unread account_id message_id unread w
  = match session_run
            (map_to_list (uids_by_folder message_id (db w))
               ≫= fun item : string * list Z =>
                    [select_folder item.1;
                     if unread then conn_remove_flags item.2 ["\Seen"]
                     else conn_add_flags item.2 ["\Seen"]])
            (remote w) with
    | (o, r', events) =>
        (o, World (db w) r'
              (trace w ++ [Acquire account_id] ++ events ++ [Release account_id]))
    end.
Proof.
  intros Hne. unfold set_remote_unread.
  rewrite (_set_flag_performs w account_id message_id "\Seen" (negb unread) Hne).
  replace (calls_of (mjoin (flag_block "\Seen" (negb unread)
                              <$> map_to_list (uids_by_folder message_id (db w)))))
    with (map_to_list (uids_by_folder message_id (db w))
            ≫= fun item : string * list Z =>
                 [select_folder item.1;
                  if unread then conn_remove_flags item.2 ["\Seen"]
                  else conn_add_flags item.2 ["\Seen"]]); [reflexivity|].
  induction (map_to_list (uids_by_folder message_id (db w))) as [|item items IH];
    [reflexivity|].
  cbn [mbind list_bind fmap list_fmap mjoin list_join].
  rewrite calls_of_app, IH. unfold flag_block. by destruct unread.
Qed.

(** ** Folder handlers at the edges *)

(** X8: when the account row or the category row is missing, the three folder
    handlers raise [AttributeError] from their first block: the session is not
    acquired and nothing is logged or written. *)
Theorem folder_handlers_require_rows (w : world R) (account_id category_id : Z)
    (old_name : string) :
  accounts (db w) !! account_id = None \/ categories (db w) !! category_id = None ->
  remote_create_folder account_id category_id w = (Raised AttributeError, w)
  /\ remote_update_folder account_id category_id old_name w
     = (Raised AttributeError, w)
  /\ remote_delete_folder account_id category_id w = (Raised AttributeError, w).
Proof.
  intros Hmissing.
  assert (Hread : read_provider_and_display_name account_id category_id w
                  = (Raised AttributeError, w)).
  { unfold read_provider_and_display_name, session_scope, bind, query_get, getattr.
    destruct w as [d r t]. cbn [db remote trace] in *.
    destruct (accounts d !! account_id) as [account|]; [|reflexivity].
    destruct Hmissing as [|Hc]; [done|]. cbn. rewrite Hc. reflexivity. }
  split; [|split].
  - unfold remote_create_folder, bind at 1. by rewrite Hread.
  - unfold remote_update_folder, bind at 1. by rewrite Hread.
  - unfold remote_delete_folder, bind at 1. by rewrite Hread.
Qed.

Lemma quiet_read_provider_and_display_name (ok : event -> bool)
    (account_id category_id : Z) :
  quiet (R := R) ok (read_provider_and_display_name account_id category_id).
Proof. unfold read_provider_and_display_name. repeat quiet_step. Qed.

(** X9: the folder handlers write nothing but the row of their category: the
    datastore after [remote_create_folder] or [remote_update_folder] is the
    datastore before, or the datastore before with that row renamed, and after
    [remote_delete_folder] it is the datastore before, or the datastore before
    without that row, whatever the session answers. *)
Theorem folder_handlers_touch_one_row (w : world R) (account_id category_id : Z)
    (old_name : string) :
  (db (remote_create_folder account_id category_id w).2 = db w
   \/ exists new_display_name,
        db (remote_create_folder account_id category_id w).2
        = with_categories (db w)
            (<[category_id := {| display_name := new_display_name |}]>
               (categories (db w))))
  /\ (db (remote_update_folder account_id category_id old_name w).2 = db w
      \/ exists new_display_name,
           db (remote_update_folder account_id category_id old_name w).2
           = with_categories (db w)
               (<[category_id := {| display_name := new_display_name |}]>
                  (categories (db w))))
  /\ (db (remote_delete_folder account_id category_id w).2 = db w
      \/ db (remote_delete_folder account_id category_id w).2
         = with_categories (db w) (delete category_id (categories (db w)))).
Proof.
  pose proof (quiet_read_provider_and_display_name (fun _ => true)
                account_id category_id w) as [Hdb1 _].
  split; [|split].
  - destruct (remote_create_folder account_id category_id w) as [o w'] eqn:Hrun.
    cbn [snd]. unfold remote_create_folder, bind at 1 in Hrun.
    destruct (read_provider_and_display_name account_id category_id w)
      as [[[account_provider display_name]|e] w1]; cbn [snd] in *;
      [|injection Hrun as _ <-; by left].
    unfold bind at 1 in Hrun.
    match type of Hrun with context [writable_connection_pool_get _ ?block w1] =>
      assert (Hblock : quiet in_session block) by repeat quiet_step;
      destruct (quiet_writable_connection_pool_get account_id block Hblock w1)
        as [Hdb2 _];
      destruct (writable_connection_pool_get account_id block w1)
        as [[new_display_name|e] w2] end;
      cbn [snd] in *; [|injection Hrun as _ <-; left; congruence].
    case_bool_decide; [|injection Hrun as _ <-; left; congruence].
    unfold session_scope, bind, query_get, set_display_name in Hrun.
    destruct (categories (db w2) !! category_id); cbn in Hrun;
      injection Hrun as _ <-; cbn [db]; [|left; congruence].
    right. exists new_display_name. by rewrite Hdb2, Hdb1.
  - destruct (remote_update_folder account_id category_id old_name w)
      as [o w'] eqn:Hrun.
    cbn [snd]. unfold remote_update_folder, bind at 1 in Hrun.
    destruct (read_provider_and_display_name account_id category_id w)
      as [[[account_provider display_name]|e] w1]; cbn [snd] in *;
      [|injection Hrun as _ <-; by left].
    unfold bind at 1 in Hrun.
    match type of Hrun with context [writable_connection_pool_get _ ?block w1] =>
      assert (Hblock : quiet in_session block) by repeat quiet_step;
      destruct (quiet_writable_connection_pool_get account_id block Hblock w1)
        as [Hdb2 _];
      destruct (writable_connection_pool_get account_id block w1)
        as [[new_display_name|e] w2] end;
      cbn [snd] in *; [|injection Hrun as _ <-; left; congruence].
    case_bool_decide; [|injection Hrun as _ <-; left; congruence].
    unfold session_scope, bind, query_get, set_display_name in Hrun.
    destruct (categories (db w2) !! category_id); cbn in Hrun;
      injection Hrun as _ <-; cbn [db]; [|left; congruence].
    right. exists new_display_name. by rewrite Hdb2, Hdb1.
  - destruct (remote_delete_folder account_id category_id w) as [o w'] eqn:Hrun.
    cbn [snd]. unfold remote_delete_folder, bind at 1 in Hrun.
    destruct (read_provider_and_display_name account_id category_id w)
      as [[[account_provider display_name]|e] w1]; cbn [snd] in *;
      [|injection Hrun as _ <-; by left].
    unfold bind at 1 in Hrun.
    match type of Hrun with context [writable_connection_pool_get _ ?block w1] =>
      assert (Hblock : quiet in_session block) by repeat quiet_step;
      destruct (quiet_writable_connection_pool_get account_id block Hblock w1)
        as [Hdb2 _];
      destruct (writable_connection_pool_get account_id block w1)
        as [[[]|e] w2] end;
      cbn [snd] in *; [|injection Hrun as _ <-; left; congruence].
    unfold session_scope, bind, query_get, db_delete, db_commit, emit in Hrun.
    destruct (categories (db w2) !! category_id); cbn in Hrun;
      injection Hrun as _ <-; cbn [db]; [|left; congruence].
    right. by rewrite Hdb2, Hdb1.
Qed.

(** X10: [remote_update_folder] asks the remote to rename [old_name] to the
    translated display name.  When the rename returns, the translated name is
    written onto the category exactly when it differs from the display name;
    when the rename raises, whatever the exception, it propagates after the
    session is released and the category is not written. *)
Theorem remote_update_folder_outcomes (w : world R) (account_id category_id : Z)
    (old_name : string) (account : Account) (category : Category)
    (separator prefix : string) (r1 r2 r3 : R) (o : outcome unit) :
  accounts (db w) !! account_id = Some account ->
  categories (db w) !! category_id = Some category ->
  (if not_in_gmail_eas (provider account)
   then respond folder_separator (remote w) = (Returned separator, r1)
        /\ respond folder_prefix r1 = (Returned prefix, r2)
   else r2 = remote w) ->
  let new_display_name :=
    translated_name (provider account) (display_name category) separator prefix in
  respond (conn_rename_folder old_name new_display_name) r2 = (o, r3) ->
  let remote_events :=
    [Acquire account_id] ++ translation_calls (provider account)
    ++ [Call (conn_rename_folder old_name new_display_name); Release account_id] in
  remote_update_folder account_id category_id old_name w
  = match o with
    | Returned _ =>
        (Returned tt,
         if bool_decide (new_display_name ≠ display_name category)
         then World (with_categories (db w)
                       (<[category_id := {| display_name := new_display_name |}]>
                          (categories (db w))))
                r3
                (trace w ++ remote_events
                 ++ [DbSetDisplayName category_id new_display_name])
         else World (db w) r3 (trace w ++ remote_events))
    | Raised e => (Raised e, World (db w) r3 (trace w ++ remote_events))
    end.
Proof.
  intros Ha Hc Htr new_display_name Hrename remote_events.
  unfold remote_update_folder, bind at 1.
  rewrite (read_provider_and_display_name_returns w _ _ _ _ Ha Hc).
  subst new_display_name remote_events.
  unfold translated_name, translation_calls in *.
  unfold writable_connection_pool_get, bind, crispin_client, ret.
  destruct (not_in_gmail_eas (provider account)).
  - destruct Htr as [Hsep Hpre]. cbn [db remote trace].
    rewrite Hsep. cbn [db remote trace]. rewrite Hpre. cbn [db remote trace].
    rewrite Hrename. destruct o as [[]|e]; cbn [db remote trace].
    + case_bool_decide.
      * unfold session_scope, bind, query_get, set_display_name.
        cbn [db remote trace]. rewrite Hc. cbn [db remote trace].
        rewrite <- !app_assoc. reflexivity.
      * rewrite <- !app_assoc. reflexivity.
    + rewrite <- !app_assoc. reflexivity.
  - subst r2. cbn [db remote trace].
    rewrite Hrename. destruct o as [[]|e]; cbn [db remote trace].
    + rewrite bool_decide_eq_false_2 by (intros Hne; by apply Hne).
      rewrite <- !app_assoc. reflexivity.
    + rewrite <- !app_assoc. reflexivity.
Qed.

(** X11: unlike the deletion of a folder, its creation swallows nothing: when
    the remote create raises, whatever the exception (also an [IMAP4.error]),
    it propagates after the session is released, and the category keeps its
    display name. *)
Theorem remote_create_folder_propagates (w : world R) (account_id category_id : Z)
    (account : Account) (category : Category) (separator prefix : string)
    (r1 r2 r3 : R) (e : exn) :
  accounts (db w) !! account_id = Some account ->
  categories (db w) !! category_id = Some category ->
  (if not_in_gmail_eas (provider account)
   then respond folder_separator (remote w) = (Returned separator, r1)
        /\ respond folder_prefix r1 = (Returned prefix, r2)
   else r2 = remote w) ->
  let new_display_name :=
    translated_name (provider account) (display_name category) separator prefix in
  respond (conn_create_folder new_display_name) r2 = (Raised e, r3) ->
  remote_create_folder account_id category_id w
  = (Raised e,
     World (db w) r3
       (trace w ++ [Acquire account_id] ++ translation_calls (provider account)
        ++ [Call (conn_create_folder new_display_name); Release account_id])).
Proof.
  intros Ha Hc Htr new_display_name Hcreate.
  unfold remote_create_folder, bind at 1.
  rewrite (read_provider_and_display_name_returns w _ _ _ _ Ha Hc).
  subst new_display_name.
  unfold translated_name, translation_calls in *.
  unfold writable_connection_pool_get, bind, crispin_client, ret.
  destruct (not_in_gmail_eas (provider account)).
  - destruct Htr as [Hsep Hpre]. cbn [db remote trace].
    rewrite Hsep. cbn [db remote trace]. rewrite Hpre. cbn [db remote trace].
    rewrite Hcreate. cbn [db remote trace]. rewrite <- !app_assoc. reflexivity.
  - subst r2. cbn [db remote trace].
    rewrite Hcreate. cbn [db remote trace]. rewrite <- !app_assoc. reflexivity.
Qed.

(** X12: in [remote_delete_folder] the folder separator is read inside the
    [try] block.  For a provider other than gmail and eas, when reading it
    raises an [IMAP4.error], the error is swallowed as well: no delete is sent
    to the remote, and the local category row is deleted all the same.  An
    exception outside that class propagates and the row stays. *)
Theorem remote_delete_folder_without_separator (w : world R)
    (account_id category_id : Z) (account : Account) (category : Category)
    (r1 : R) (e : exn) :
  accounts (db w) !! account_id = Some account ->
  categories (db w) !! category_id = Some category ->
  not_in_gmail_eas (provider account) = true ->
  respond folder_separator (remote w) = (Raised e, r1) ->
  let remote_events :=
    [Acquire account_id; Call folder_separator; Release account_id] in
  remote_delete_folder account_id category_id w
  = if isinstance_IMAP4_error e
    then (Returned tt,
          World (with_categories (db w) (delete category_id (categories (db w))))
            r1 (trace w ++ remote_events ++ [DbDelete category_id; DbCommit]))
    else (Raised e, World (db w) r1 (trace w ++ remote_events)).
Proof.
  intros Ha Hc Hprovider Hsep remote_events.
  unfold remote_delete_folder, bind at 1.
  rewrite (read_provider_and_display_name_returns w _ _ _ _ Ha Hc).
  subst remote_events. rewrite Hprovider. unfold bind at 1.
  unfold writable_connection_pool_get, try_except_IMAP4_error, bind,
    crispin_client.
  cbn [db remote trace]. rewrite Hsep.
  destruct (isinstance_IMAP4_error e); cbn [db remote trace];
    unfold session_scope, query_get, db_delete, db_commit, emit;
    cbn [db remote trace]; rewrite ?Hc; cbn [db remote trace];
    rewrite <- ?app_assoc; reflexivity.
Qed.

(** ** Drafts and sent messages at the edges *)

(** X13: when the folder mapping of the account has no 'drafts' role,
    [remote_save_draft] and [remote_update_draft] build the message, acquire
    the session, read the mapping once, log, release the session and return:
    nothing is selected, searched, appended or deleted. *)
Theorem draft_writers_without_drafts_folder (w : world R)
    (account_id message_id : Z) (old_message_id_header : string) (m : Message)
    (names : gmap string (list string)) (r1 : R) :
  messages (db w) !! message_id = Some m ->
  from_addr m ≠ [] ->
  respond folder_names (remote w) = (Returned names, r1) ->
  names !! "drafts" = None ->
  remote_save_draft account_id message_id w
  = (Returned tt,
     World (db w) r1
       (trace w ++ [Acquire account_id; Call folder_names;
                    Log info "Account has no detected drafts folder; not saving draft";
                    Release account_id]))
  /\ remote_update_draft account_id message_id old_message_id_header w
     = (Returned tt,
        World (db w) r1
          (trace w ++ [Acquire account_id; Call folder_names;
                       Log info "Account has no drafts folder. Will not save draft.";
                       Release account_id])).
Proof.
  intros Hm Hfrom Hnames Hdrafts.
  destruct (_create_email_returns (accounts (db w) !! account_id) m Hfrom)
    as [mimemsg He].
  split.
  - unfold remote_save_draft, bind at 1.
    unfold session_scope, bind, query_get, lift. rewrite Hm, He.
    unfold writable_connection_pool_get, crispin_client, log, emit.
    cbn [db remote trace]. rewrite Hnames. unfold contains.
    rewrite bool_decide_eq_false_2 by (rewrite Hdrafts; apply is_Some_None).
    cbn [negb db remote trace]. rewrite <- !app_assoc. reflexivity.
  - unfold remote_update_draft, bind at 1.
    unfold session_scope, bind, query_get, getattr, ret, lift. rewrite Hm, He.
    unfold writable_connection_pool_get, crispin_client, log, emit.
    cbn [db remote trace]. rewrite Hnames. unfold contains.
    rewrite bool_decide_eq_false_2 by (rewrite Hdrafts; apply is_Some_None).
    cbn [negb db remote trace]. rewrite <- !app_assoc. reflexivity.
Qed.

(** X14: with a drafts folder, [remote_save_draft] reads the folder mapping
    twice, selects the first folder listed under 'drafts' and appends the built
    message there; it ends as the append ends, and the session is released
    either way. *)
Theorem remote_save_draft_appends (w : world R) (account_id message_id : Z)
    (m : Message) (mimemsg : email) (names names' : gmap string (list string))
    (folder_name : string) (rest : list string) (r1 r2 r3 r4 : R)
    (o : outcome unit) :
  messages (db w) !! message_id = Some m ->
  _create_email (accounts (db w) !! account_id) (Some m) = Returned mimemsg ->
  respond folder_names (remote w) = (Returned names, r1) ->
  is_Some (names !! "drafts") ->
  respond folder_names r1 = (Returned names', r2) ->
  names' !! "drafts" = Some (folder_name :: rest) ->
  respond (select_folder folder_name) r2 = (Returned tt, r3) ->
  respond (save_draft mimemsg) r3 = (o, r4) ->
  remote_save_draft account_id message_id w
  = (o,
     World (db w) r4
       (trace w ++ [Acquire account_id; Call folder_names; Call folder_names;
                    Call (select_folder folder_name); Call (save_draft mimemsg);
                    Release account_id])).
Proof.
  intros Hm He Hnames Hdrafts Hnames' Hdrafts' Hsel Hsave.
  unfold remote_save_draft, bind at 1.
  unfold session_scope, bind, query_get, lift. rewrite Hm, He.
  unfold writable_connection_pool_get, crispin_client, getitem, first_item, ret.
  cbn [db remote trace]. rewrite Hnames. unfold contains.
  rewrite bool_decide_eq_true_2 by done. cbn [negb db remote trace].
  rewrite Hnames', Hdrafts'. cbn [db remote trace].
  rewrite Hsel. cbn [db remote trace]. rewrite Hsave. cbn [db remote trace].
  rewrite <- !app_assoc. reflexivity.
Qed.

(** X15: the 'drafts' role being present is not enough.  When the mapping read
    the second time lists no folder under 'drafts', [remote_save_draft] and
    [remote_update_draft] raise [IndexError], and when it has no 'drafts' role
    any more they raise [KeyError]; the session is released and nothing was
    selected or appended. *)
Theorem draft_writers_need_a_folder_name (w : world R) (account_id message_id : Z)
    (old_message_id_header : string) (m : Message)
    (names names' : gmap string (list string)) (r1 r2 : R) (e : exn) :
  messages (db w) !! message_id = Some m ->
  from_addr m ≠ [] ->
  respond folder_names (remote w) = (Returned names, r1) ->
  is_Some (names !! "drafts") ->
  respond folder_names r1 = (Returned names', r2) ->
  match names' !! "drafts" with
  | None => e = KeyError
  | Some [] => e = IndexError
  | Some (_ :: _) => False
  end ->
  let w' :=
    World (db w) r2
      (trace w ++ [Acquire account_id; Call folder_names; Call folder_names;
                   Release account_id]) in
  remote_save_draft account_id message_id w = (Raised e, w')
  /\ remote_update_draft account_id message_id old_message_id_header w
     = (Raised e, w').
Proof.
  intros Hm Hfrom Hnames Hdrafts Hnames' Hbad w'. subst w'.
  destruct (_create_email_returns (accounts (db w) !! account_id) m Hfrom)
    as [mimemsg He].
  split.
  - unfold remote_save_draft, bind at 1.
    unfold session_scope, bind, query_get, lift. rewrite Hm, He.
    unfold writable_connection_pool_get, crispin_client, getitem, first_item,
      ret, raise.
    cbn [db remote trace]. rewrite Hnames. unfold contains.
    rewrite bool_decide_eq_true_2 by done. cbn [negb db remote trace].
    rewrite Hnames'.
    destruct (names' !! "drafts") as [[|f fs]|]; [subst e| done |subst e];
      cbn [db remote trace]; rewrite <- !app_assoc; reflexivity.
  - unfold remote_update_draft, bind at 1.
    unfold session_scope, bind, query_get, getattr, ret, lift. rewrite Hm, He.
    unfold writable_connection_pool_get, crispin_client, getitem, first_item,
      ret, raise.
    cbn [db remote trace]. rewrite Hnames. unfold contains.
    rewrite bool_decide_eq_true_2 by done. cbn [negb db remote trace].
    rewrite Hnames'.
    destruct (names' !! "drafts") as [[|f fs]|]; [subst e| done |subst e];
      cbn [db remote trace]; rewrite <- !app_assoc; reflexivity.
Qed.

(** X16: [remote_delete_draft] does nothing but log when the account has no
    'drafts' role; otherwise it asks for the deletion of the draft with the
    given Message-Id header, without selecting a folder itself, and returns
    normally whether or not a draft was found; an exception of the deletion
    propagates. *)
Theorem remote_delete_draft_outcomes (w : world R) (account_id : Z)
    (inbox_uid message_id_header : string) (names : gmap string (list string))
    (r1 r2 : R) (o : outcome bool) :
  respond folder_names (remote w) = (Returned names, r1) ->
  respond (delete_draft message_id_header) r1 = (o, r2) ->
  remote_delete_draft account_id inbox_uid message_id_header w
  = match names !! "drafts" with
    | None =>
        (Returned tt,
         World (db w) r1
           (trace w ++ [Acquire account_id; Call folder_names;
                        Log info "Account has no detected drafts folder; not deleting draft";
                        Release account_id]))
    | Some _ =>
        (match o with Returned _ => Returned tt | Raised e => Raised e end,
         World (db w) r2
           (trace w ++ [Acquire account_id; Call folder_names;
                        Call (delete_draft message_id_header);
                        Release account_id]))
    end.
Proof.
  intros Hnames Hdelete.
  unfold remote_delete_draft, writable_connection_pool_get, bind, crispin_client,
    log, emit, ret.
  cbn [db remote trace]. rewrite Hnames. unfold contains.
  destruct (names !! "drafts") as [l|].
  - rewrite bool_decide_eq_true_2 by done. cbn [negb db remote trace].
    rewrite Hdelete. destruct o; cbn [db remote trace];
      rewrite <- !app_assoc; reflexivity.
  - rewrite bool_decide_eq_false_2 by apply is_Some_None.
    cbn [negb db remote trace]. rewrite <- !app_assoc. reflexivity.
Qed.

(** X17: [remote_delete_sent] does nothing but log when the account has no
    'sent' role; otherwise it asks for the deletion of the sent message with
    the given Message-Id header, handing [delete_multiple] over as it got it,
    and ends as that deletion ends. *)
Theorem remote_delete_sent_outcomes (w : world R) (account_id : Z)
    (message_id_header : string) (delete_multiple : bool)
    (names : gmap string (list string)) (r1 r2 : R) (o : outcome unit) :
  respond folder_names (remote w) = (Returned names, r1) ->
  respond (delete_sent_message message_id_header delete_multiple) r1 = (o, r2) ->
  remote_delete_sent account_id message_id_header delete_multiple w
  = match names !! "sent" with
    | None =>
        (Returned tt,
         World (db w) r1
           (trace w ++ [Acquire account_id; Call folder_names;
                        Log info "Account has no detected sent folder; not deleting message";
                        Release account_id]))
    | Some _ =>
        (o,
         World (db w) r2
           (trace w ++ [Acquire account_id; Call folder_names;
                        Call (delete_sent_message message_id_header delete_multiple);
                        Release account_id]))
    end.
Proof.
  intros Hnames Hdelete.
  unfold remote_delete_sent, writable_connection_pool_get, bind, crispin_client,
    log, emit.
  cbn [db remote trace]. rewrite Hnames. unfold contains.
  destruct (names !! "sent") as [l|].
  - rewrite bool_decide_eq_true_2 by done. cbn [negb db remote trace].
    rewrite Hdelete. cbn [db remote trace]. rewrite <- !app_assoc. reflexivity.
  - rewrite bool_decide_eq_false_2 by apply is_Some_None.
    cbn [negb db remote trace]. rewrite <- !app_assoc. reflexivity.
Qed.

(** X18: with an existing message and a sent folder, [remote_save_sent] reads
    the folder mapping twice, selects the first folder listed under 'sent' and
    creates the built message there; it ends as the creation ends, and the
    session is released either way. *)
Theorem remote_save_sent_creates (w : world R) (account_id message_id : Z)
    (m : Message) (mimemsg : email) (names names' : gmap string (list string))
    (folder_name : string) (rest : list string) (r1 r2 r3 r4 : R)
    (o : outcome unit) :
  messages (db w) !! message_id = Some m ->
  _create_email (accounts (db w) !! account_id) (Some m) = Returned mimemsg ->
  respond folder_names (remote w) = (Returned names, r1) ->
  is_Some (names !! "sent") ->
  respond folder_names r1 = (Returned names', r2) ->
  names' !! "sent" = Some (folder_name :: rest) ->
  respond (select_folder folder_name) r2 = (Returned tt, r3) ->
  respond (create_message mimemsg) r3 = (o, r4) ->
  remote_save_sent account_id message_id w
  = (o,
     World (db w) r4
       (trace w ++ [Acquire account_id; Call folder_names; Call folder_names;
                    Call (select_folder folder_name); Call (create_message mimemsg);
                    Release account_id])).
Proof.
  intros Hm He Hnames Hsent Hnames' Hsent' Hsel Hcreate.
  unfold remote_save_sent, bind at 1.
  unfold session_scope, bind, query_get, ret, lift. rewrite Hm, He.
  unfold writable_connection_pool_get, crispin_client, getitem, first_item, ret.
  cbn [db remote trace]. rewrite Hnames. unfold contains.
  rewrite bool_decide_eq_true_2 by done. cbn [negb db remote trace].
  rewrite Hnames', Hsent'. cbn [db remote trace].
  rewrite Hsel. cbn [db remote trace]. rewrite Hcreate. cbn [db remote trace].
  rewrite <- !app_assoc. reflexivity.
Qed.

(** X19: [remote_update_draft] deletes the old draft only after the new one
    is known to be on the remote.  When the search for the new header found
    nothing and appending the new draft raises, the exception propagates, the
    session is released and no deletion of the old draft is asked for; the
    same holds when the search itself raises. *)
Theorem remote_update_draft_keeps_old_draft (w : world R)
    (account_id message_id : Z) (old_message_id_header : string)
    (m : Message) (mimemsg : email) (names names' : gmap string (list string))
    (folder_name : string) (rest : list string) (r1 r2 r3 r4 r5 : R)
    (o : outcome (option Z)) (e : exn) :
  messages (db w) !! message_id = Some m ->
  _create_email (accounts (db w) !! account_id) (Some m) = Returned mimemsg ->
  respond folder_names (remote w) = (Returned names, r1) ->
  is_Some (names !! "drafts") ->
  respond folder_names r1 = (Returned names', r2) ->
  names' !! "drafts" = Some (folder_name :: rest) ->
  respond (select_folder folder_name) r2 = (Returned tt, r3) ->
  respond (find_by_header "Message-Id" (message_id_header m)) r3 = (o, r4) ->
  match o with
  | Returned None => respond (save_draft mimemsg) r4 = (Raised e, r5)
  | Returned (Some _) => False
  | Raised e' => e' = e /\ r5 = r4
  end ->
  let searched :=
    [Acquire account_id; Call folder_names; Call folder_names;
     Call (select_folder folder_name);
     Call (find_by_header "Message-Id" (message_id_header m))] in
  remote_update_draft account_id message_id old_message_id_header w
  = (Raised e,
     World (db w) r5
       (trace w ++ searched
        ++ match o with
           | Returned _ => [Call (save_draft mimemsg)]
           | Raised _ => []
           end
        ++ [Release account_id]))
  /\ Call (delete_draft old_message_id_header)
     ∉ searched ++ [Call (save_draft mimemsg); Release account_id].
Proof.
  intros Hm He Hnames Hdrafts Hnames' Hdrafts' Hsel Hfind Hfail searched.
  split.
  - unfold remote_update_draft, bind at 1.
    unfold session_scope, bind, query_get, getattr, ret, lift.
    rewrite Hm, He.
    unfold writable_connection_pool_get, crispin_client, getitem, first_item, ret.
    cbn [db remote trace]. rewrite Hnames. cbn [db remote trace].
    unfold contains. rewrite bool_decide_eq_true_2 by done.
    cbn [negb db remote trace].
    rewrite Hnames', Hdrafts'. cbn [db remote trace].
    rewrite Hsel. cbn [db remote trace]. rewrite Hfind.
    destruct o as [[uid|]|e']; [done| |].
    + rewrite bool_decide_eq_false_2 by apply is_Some_None.
      cbn [negb db remote trace]. rewrite Hfail. cbn [db remote trace].
      subst searched. rewrite <- !app_assoc. reflexivity.
    + destruct Hfail as [-> ->]. cbn [db remote trace].
      subst searched. rewrite <- !app_assoc. reflexivity.
  - subst searched. cbn [app]. rewrite !elem_of_cons, elem_of_nil.
    intros Hin. repeat (destruct Hin as [Hin|Hin]; [discriminate|]). exact Hin.
Qed.

End Coverage.

(** ** The worked example, further *)

(** The copy out of the first folder is refused: the move stops there, and
    nothing was deleted. *)
Lemma remote_move_never_deletes_before_copy_witness :
  exists p,
    trace (remote_move 1 3 "Archive" (World example_db copy_refused [])).2
    = [] ++ [Acquire 1] ++ p ++ [Release 1]
    /\ p `prefix_of` mjoin (move_block "Archive"
                             <$> map_to_list (uids_by_folder 3 example_db))
    /\ forall pre uids post,
         p = pre ++ Call (delete_uids uids) :: post ->
         exists pre' r_mid r_next,
           pre = pre' ++ [Call (conn_copy uids "Archive")]
           /\ session_run (calls_of pre') copy_refused = (Returned tt, r_mid, pre')
           /\ respond (conn_copy uids "Archive") r_mid = (Returned tt, r_next).
Proof.
  exact (remote_move_never_deletes_before_copy (World example_db copy_refused [])
           1 3 "Archive" example_has_uids).
Defined.

(** The message of the example is starred. *)
Lemma set_flag_stays_within_mapping_witness :
  exists p,
    trace (_set_flag 1 3 "\Flagged" true example_world).2
    = [] ++ [Acquire 1] ++ p ++ [Release 1]
    /\ p `prefix_of` mjoin (flag_block "\Flagged" true
                             <$> map_to_list (uids_by_folder 3 example_db))
    /\ forall c, Call c ∈ p ->
         exists folder_name uids,
           uids_by_folder 3 example_db !! folder_name = Some uids
           /\ (c = select_folder folder_name \/ c = conn_add_flags uids ["\Flagged"]).
Proof.
  exact (set_flag_stays_within_mapping example_world 1 3 "\Flagged" true
           example_has_uids).
Defined.

(** The message of the example is marked unread. *)
Lemma set_remote_unread_polarity_witness :
  set_remote_unread 1 3 true example_world
  = (Returned tt,
     World example_db example_mailbox
       [Acquire 1;
        Call (select_folder "Work"); Call (conn_remove_flags [9] ["\Seen"]);
        Call (select_folder "Inbox"); Call (conn_remove_flags [5] ["\Seen"]);
        Release 1]).
Proof.
  rewrite (set_remote_unread_polarity example_world 1 3 true example_has_uids).
  vm_compute. reflexivity.
Defined.

(** There is no account 9. *)
Lemma folder_handlers_require_rows_witness :
  remote_create_folder 9 7 example_world = (Raised AttributeError, example_world)
  /\ remote_update_folder 9 7 "INBOX.Bills" example_world
     = (Raised AttributeError, example_world)
  /\ remote_delete_folder 9 7 example_world = (Raised AttributeError, example_world).
Proof.
  apply (folder_handlers_require_rows example_world 9 7 "INBOX.Bills").
  left. reflexivity.
Defined.

(** The remote folder "INBOX.Bills" is renamed after the example category. *)
Lemma remote_update_folder_outcomes_witness :
  remote_update_folder 1 7 "INBOX.Bills" example_world
  = (Returned tt,
     World (with_categories example_db
              {[ 7 := {| display_name := "INBOX.Work.Invoices" |} ]})
       example_mailbox
       [Acquire 1; Call folder_separator; Call folder_prefix;
        Call (conn_rename_folder "INBOX.Bills" "INBOX.Work.Invoices"); Release 1;
        DbSetDisplayName 7 "INBOX.Work.Invoices"]).
Proof.
  rewrite (remote_update_folder_outcomes example_world 1 7 "INBOX.Bills"
             {| provider := "generic" |} {| display_name := "Work/Invoices" |}
             "." "INBOX." example_mailbox example_mailbox example_mailbox
             (Returned tt) eq_refl eq_refl (conj eq_refl eq_refl) eq_refl).
  vm_compute. reflexivity.
Defined.

(** The remote refuses to create the folder of the example category. *)
Lemma remote_create_folder_propagates_witness :
  remote_create_folder 1 7 (World example_db create_refused [])
  = (Raised (IMAP4_error "create failed: [ALREADYEXISTS] Mailbox already exists"),
     World example_db create_refused
       [Acquire 1; Call folder_separator; Call folder_prefix;
        Call (conn_create_folder "INBOX.Work.Invoices"); Release 1]).
Proof.
  exact (remote_create_folder_propagates (World example_db create_refused []) 1 7
           {| provider := "generic" |} {| display_name := "Work/Invoices" |}
           "." "INBOX." create_refused create_refused create_refused
           (IMAP4_error "create failed: [ALREADYEXISTS] Mailbox already exists")
           eq_refl eq_refl (conj eq_refl eq_refl) eq_refl).
Defined.

(** The connection drops when the separator is asked for: the category row is
    deleted although no delete was sent. *)
Lemma remote_delete_folder_without_separator_witness :
  remote_delete_folder 1 7 (World example_db separator_unavailable [])
  = (Returned tt,
     World (with_categories example_db ∅) separator_unavailable
       [Acquire 1; Call folder_separator; Release 1; DbDelete 7; DbCommit]).
Proof.
  rewrite (remote_delete_folder_without_separator
             (World example_db separator_unavailable []) 1 7
             {| provider := "generic" |} {| display_name := "Work/Invoices" |}
             separator_unavailable (IMAP4_abort "socket error: EOF")
             eq_refl eq_refl eq_refl eq_refl).
  vm_compute. reflexivity.
Defined.

(** A mailbox without a drafts folder. *)
Lemma draft_writers_without_drafts_folder_witness :
  remote_save_draft 1 3 (World example_db mailbox_without_roles [])
  = (Returned tt,
     World example_db mailbox_without_roles
       [Acquire 1; Call folder_names;
        Log info "Account has no detected drafts folder; not saving draft";
        Release 1])
  /\ remote_update_draft 1 3 "<c3p0-1@mailer.nylas.com>"
       (World example_db mailbox_without_roles [])
     = (Returned tt,
        World example_db mailbox_without_roles
          [Acquire 1; Call folder_names;
           Log info "Account has no drafts folder. Will not save draft.";
           Release 1]).
Proof.
  apply (draft_writers_without_drafts_folder
           (World example_db mailbox_without_roles []) 1 3
           "<c3p0-1@mailer.nylas.com>" example_message
           (mb_folder_names mailbox_without_roles) mailbox_without_roles);
    [reflexivity | discriminate | reflexivity | reflexivity].
Defined.

(** The draft of the example is saved. *)
Lemma remote_save_draft_appends_witness :
  remote_save_draft 1 3 example_world
  = (Returned tt,
     World example_db (with_drafts example_mailbox [(1, example_email)] 2)
       [Acquire 1; Call folder_names; Call folder_names;
        Call (select_folder "INBOX.Drafts"); Call (save_draft example_email);
        Release 1]).
Proof.
  exact (remote_save_draft_appends example_world 1 3 example_message example_email
           (mb_folder_names example_mailbox) (mb_folder_names example_mailbox)
           "INBOX.Drafts" [] example_mailbox example_mailbox example_mailbox
           (with_drafts example_mailbox [(1, example_email)] 2) (Returned tt)
           eq_refl eq_refl eq_refl (ex_intro _ ["INBOX.Drafts"] eq_refl)
           eq_refl eq_refl eq_refl eq_refl).
Defined.

(** A 'drafts' role without a folder. *)
Lemma draft_writers_need_a_folder_name_witness :
  remote_save_draft 1 3 (World example_db mailbox_with_unnamed_drafts [])
  = (Raised IndexError,
     World example_db mailbox_with_unnamed_drafts
       [Acquire 1; Call folder_names; Call folder_names; Release 1])
  /\ remote_update_draft 1 3 "<c3p0-1@mailer.nylas.com>"
       (World example_db mailbox_with_unnamed_drafts [])
     = (Raised IndexError,
        World example_db mailbox_with_unnamed_drafts
          [Acquire 1; Call folder_names; Call folder_names; Release 1]).
Proof.
  apply (draft_writers_need_a_folder_name
           (World example_db mailbox_with_unnamed_drafts []) 1 3
           "<c3p0-1@mailer.nylas.com>" example_message
           (mb_folder_names mailbox_with_unnamed_drafts)
           (mb_folder_names mailbox_with_unnamed_drafts)
           mailbox_with_unnamed_drafts mailbox_with_unnamed_drafts IndexError);
    [reflexivity | discriminate | reflexivity
    | exists []; reflexivity | reflexivity | reflexivity].
Defined.

(** No draft with that header is on the remote: the handler returns all the
    same. *)
Lemma remote_delete_draft_outcomes_witness :
  remote_delete_draft 1 "c3p0" "<c3p0@mailer.nylas.com>" example_world
  = (Returned tt,
     World example_db example_mailbox
       [Acquire 1; Call folder_names;
        Call (delete_draft "<c3p0@mailer.nylas.com>"); Release 1]).
Proof.
  rewrite (remote_delete_draft_outcomes example_world 1 "c3p0"
             "<c3p0@mailer.nylas.com>" (mb_folder_names example_mailbox)
             example_mailbox example_mailbox (Returned false) eq_refl eq_refl).
  vm_compute. reflexivity.
Defined.

(** All the sent messages with a header are deleted from a mailbox that has a
    sent folder; nothing is asked of a mailbox that has none. *)
Lemma remote_delete_sent_outcomes_witness :
  remote_delete_sent 1 "<c3p0@mailer.nylas.com>" true
    (World example_db mailbox_with_sent [])
  = (Returned tt,
     World example_db mailbox_with_sent
       [Acquire 1; Call folder_names;
        Call (delete_sent_message "<c3p0@mailer.nylas.com>" true); Release 1])
  /\ remote_delete_sent 1 "<c3p0@mailer.nylas.com>" true example_world
     = (Returned tt,
        World example_db example_mailbox
          [Acquire 1; Call folder_names;
           Log info "Account has no detected sent folder; not deleting message";
           Release 1]).
Proof.
  split.
  - rewrite (remote_delete_sent_outcomes (World example_db mailbox_with_sent []) 1
               "<c3p0@mailer.nylas.com>" true (mb_folder_names mailbox_with_sent)
               mailbox_with_sent mailbox_with_sent (Returned tt) eq_refl eq_refl).
    vm_compute. reflexivity.
  - rewrite (remote_delete_sent_outcomes example_world 1
               "<c3p0@mailer.nylas.com>" true (mb_folder_names example_mailbox)
               example_mailbox example_mailbox (Returned tt) eq_refl eq_refl).
    vm_compute. reflexivity.
Defined.

(** The message of the example is saved to the first of the two sent
    folders. *)
Lemma remote_save_sent_creates_witness :
  remote_save_sent 1 3 (World example_db mailbox_with_sent [])
  = (Returned tt,
     World example_db mailbox_with_sent
       [Acquire 1; Call folder_names; Call folder_names;
        Call (select_folder "INBOX.Sent"); Call (create_message example_email);
        Release 1]).
Proof.
  exact (remote_save_sent_creates (World example_db mailbox_with_sent []) 1 3
           example_message example_email
           (mb_folder_names mailbox_with_sent) (mb_folder_names mailbox_with_sent)
           "INBOX.Sent" ["INBOX.Sent Items"] mailbox_with_sent mailbox_with_sent
           mailbox_with_sent mailbox_with_sent (Returned tt)
           eq_refl eq_refl eq_refl
           (ex_intro _ ["INBOX.Sent"; "INBOX.Sent Items"] eq_refl)
           eq_refl eq_refl eq_refl eq_refl).
Defined.

(** Appending the new draft is refused: the deletion of the old one is not
    asked for. *)
Lemma remote_update_draft_keeps_old_draft_witness :
  remote_update_draft 1 3 "<c3p0-1@mailer.nylas.com>"
    (World example_db append_refused [])
  = (Raised (IMAP4_error "append failed: [OVERQUOTA] Quota exceeded"),
     World example_db append_refused
       [Acquire 1; Call folder_names; Call folder_names;
        Call (select_folder "INBOX.Drafts");
        Call (find_by_header "Message-Id" "<c3p0@mailer.nylas.com>");
        Call (save_draft example_email); Release 1]).
Proof.
  destruct (remote_update_draft_keeps_old_draft
              (World example_db append_refused []) 1 3 "<c3p0-1@mailer.nylas.com>"
              example_message example_email
              (mb_folder_names example_mailbox) (mb_folder_names example_mailbox)
              "INBOX.Drafts" [] append_refused append_refused append_refused
              append_refused append_refused (Returned None)
              (IMAP4_error "append failed: [OVERQUOTA] Quota exceeded")
              eq_refl eq_refl eq_refl (ex_intro _ ["INBOX.Drafts"] eq_refl)
              eq_refl eq_refl eq_refl eq_refl eq_refl) as [Hrun _].
  exact Hrun.
Defined.
